(** * py-message: phone-number validation and notification dispatch

    A shallow embedding of [src/py_message/__init__.py].

    Python [str] values are modelled as [String.string]: sequences of code
    points below 256.  In that range the regular-expression class [\d]
    is exactly the ten characters ['0'] .. ['9'].  [None] is [option]'s
    [None]; [os.environ] is a finite map from names to values. *)

From Stdlib Require Import ZArith Ascii String List Lia DecimalString.
From stdpp Require Import gmap strings list fin_maps.

Import ListNotations.
Local Open Scope string_scope.

(* String concatenation should compute under [simpl]. *)
#[local] Arguments String.append !_ _ : simpl nomatch.

(** ** Exceptions and results *)

(** Failures of the external collaborators (SMTP server, the email
    package rendering a message, SMS service, HTTP endpoint); the program
    never inspects them. *)
Inductive transport_failure : Type :=
| TransportFailure (detail : string).

(** The exceptions the module can leave through.  [ValueError] and
    [EnvironmentError] are raised by the module's own [raise] statements;
    [JSONDecodeError] and [AttributeError] come from evaluating
    [res.json().get(...)]; [TransportError] wraps whatever a collaborator
    raised. *)
Inductive exn : Type :=
| ValueError (msg : string)
| EnvironmentError (msg : string)
| JSONDecodeError
| AttributeError
| TransportError (f : transport_failure).

Inductive result (A : Type) : Type :=
| Ok (a : A)
| Raise (e : exn).
Arguments Ok {A} a.
Arguments Raise {A} e.

Definition is_ok {A} (r : result A) : bool :=
  match r with Ok _ => true | Raise _ => false end.

(** ** [_validate_phone_number] *)

(** The double-quote character, used inside the f-string messages. *)
Definition dquote : string := String (ascii_of_nat 34) EmptyString.

(** [\d] on a code point below 256. *)
Definition is_digit (c : ascii) : bool :=
  let n := nat_of_ascii c in (48 <=? n)%nat && (n <=? 57)%nat.

(** A finished run is reported only when it is not empty: [\d+] needs one
    digit at least. *)
Definition emit_run (run : string) (rest : list string) : list string :=
  match run with
  | EmptyString => rest
  | String _ _ => run :: rest
  end.

(** Left-to-right scan for [re.findall(r"\d+", s)]: [run] holds the digits
    of the match in progress; a non-digit (or the end of the input) closes
    it. *)
Fixpoint findall_runs (run : string) (s : string) : list string :=
  match s with
  | EmptyString => emit_run run []
  | String c rest =>
      if is_digit c
      then findall_runs (run ++ String c EmptyString) rest
      else emit_run run (findall_runs EmptyString rest)
  end.

Definition re_findall_digits (s : string) : list string :=
  findall_runs EmptyString s.

(** ["".join(parts)] *)
Definition join_empty (parts : list string) : string :=
  fold_right String.append EmptyString parts.

(** [sep.join(parts)] *)
Fixpoint str_join (sep : string) (parts : list string) : string :=
  match parts with
  | [] => EmptyString
  | [p] => p
  | p :: ps => p ++ sep ++ str_join sep ps
  end.

(** The message of the [ValueError] raised for an unusable number. *)
Definition phone_error_message (phone_number : string) : string :=
  "The phone number provided " ++ dquote ++ phone_number ++ dquote
  ++ ", is not between 10 and 12 digits.".

(** The spec's [InvalidPhoneNumber]. *)
Definition InvalidPhoneNumber (phone_number : string) : exn :=
  ValueError (phone_error_message phone_number).

Definition _validate_phone_number (phone_number : string) : result string :=
  let matches := re_findall_digits phone_number in
  let phone_number :=
    match matches with
    | [] => phone_number
    | _ :: _ => join_empty matches
    end in
  if ((String.length phone_number <? 10)%nat
      || (12 <? String.length phone_number)%nat)%bool
  then Raise (InvalidPhoneNumber phone_number)
  else
    let phone_number :=
      if (String.length phone_number =? 10)%nat
      then "1" ++ phone_number
      else phone_number in
    Ok ("+" ++ phone_number).

(** The concatenation of the maximal digit runs of the input. *)
Definition digit_concat (raw : string) : string :=
  join_empty (re_findall_digits raw).

(** [^\+\d{11,12}$]: a plus sign followed by 11 or 12 digits and nothing
    else. *)
Fixpoint all_digits (s : string) : bool :=
  match s with
  | EmptyString => true
  | String c rest => is_digit c && all_digits rest
  end.

Definition matches_plus_digits_11_12 (s : string) : bool :=
  match s with
  | String c rest =>
      Ascii.eqb c "+"%char && all_digits rest
      && (11 <=? String.length rest)%nat && (String.length rest <=? 12)%nat
  | EmptyString => false
  end.

(** The digit characters of a string, in order. *)
Fixpoint digits_only (s : string) : string :=
  match s with
  | EmptyString => EmptyString
  | String c rest =>
      if is_digit c then String c (digits_only rest) else digits_only rest
  end.

Fixpoint has_digit (s : string) : bool :=
  match s with
  | EmptyString => false
  | String c rest => is_digit c || has_digit rest
  end.

(** Feeding a result of the normalizer to the normalizer again. *)
Definition and_then {A B} (r : result A) (f : A -> result B) : result B :=
  match r with
  | Ok a => f a
  | Raise e => Raise e
  end.

(** The length test of the source, on a length. *)
Definition length_in_range (n : nat) : Prop := (10 <= n <= 12)%nat.

(** Whether [normalize] fails with [InvalidPhoneNumber] (a [ValueError]
    carrying the not-between-10-and-12-digits message). *)
Definition fails_invalid_phone (r : result string) : Prop :=
  exists shown, r = Raise (InvalidPhoneNumber shown).

(** ** The outside world *)

Inductive level : Type := DEBUG | ERROR.

(** [Union[str, list[str]]] *)
Inductive Recipients : Type :=
| RStr (s : string)
| RList (l : list string).

(** The [MIMEText] message as [send_email] fills it in. *)
Record MIMEText : Type := {
  mime_payload : string;
  mime_From : option string;
  mime_Subject : option string;
  mime_To : string
}.

(** [azure.communication.sms.SmsSendResult] *)
Record SmsSendResult : Type := {
  to : string;
  message_id : option string;
  http_status_code : Z;
  successful : bool;
  error_message : option string
}.

(** A decoded JSON document; an object is a Python [dict]. *)
#[warnings="-register-all"]
Inductive json : Type :=
| JNull
| JBool (b : bool)
| JNumber (n : Z)
| JString (s : string)
| JArray (items : list json)
| JObject (fields : gmap string json).

(** What the program reads of a [requests.Response]: the status code and
    the body as [res.json()] sees it, [None] when the body is not a JSON
    document. *)
Record Response : Type := {
  status_code : Z;
  json_body : option json
}.

(** Everything the module does to the outside, in program order. *)
Inductive event : Type :=
| Log (lvl : level) (msg : string)
| SmtpConnect (host : string) (port : Z)
| SmtpLogin (user password : option string)
| SmtpSendmail (from_addr : option string) (to_addrs : list string)
    (msg : MIMEText)
| SmtpQuit
| SmsClientCreate (connection_string : string)
| SmsSend (from_ : string) (to_ : Recipients) (message : string)
| HttpPost (url : string) (headers : list (string * string))
    (data : list (string * option string)).

(** Events that reach the SMS collaborator. *)
Definition is_sms_transport (ev : event) : bool :=
  match ev with
  | SmsClientCreate _ | SmsSend _ _ _ => true
  | _ => false
  end.

Definition is_error_log (ev : event) : bool :=
  match ev with
  | Log ERROR _ => true
  | _ => false
  end.

(** ** A writer-with-exceptions monad: the trace so far and the outcome *)

Definition M (A : Type) : Type := (list event * result A)%type.

Definition trace {A} (m : M A) : list event := fst m.
Definition outcome {A} (m : M A) : result A := snd m.

#[global] Instance M_ret : MRet M := fun A a => ([], Ok a).

#[global] Instance M_bind : MBind M := fun A B k m =>
  match m with
  | (t, Ok a) => let '(t', r) := k a in ((t ++ t')%list, r)
  | (t, Raise e) => (t, Raise e)
  end.

Definition raise {A} (e : exn) : M A := ([], Raise e).

Definition emit (ev : event) : M unit := ([ev], Ok tt).

(** A pure computation that may raise. *)
Definition lift {A} (r : result A) : M A := ([], r).

(** A call to a collaborator: the call is recorded, and a failure of the
    collaborator propagates as an exception. *)
Definition call {A} (ev : event) (answer : transport_failure + A) : M A :=
  ([ev], match answer with
         | inl f => Raise (TransportError f)
         | inr a => Ok a
         end).

(** [with ... :] block exit: [exit_] runs whether the block raised or
    not.  When it returns, the block's outcome stands; when it raises,
    its exception is what leaves the [with] statement, in place of the
    block's outcome. *)
Definition finally {A} (block : M A) (exit_ : M unit) : M A :=
  ((trace block ++ trace exit_)%list,
   match outcome exit_ with
   | Ok _ => outcome block
   | Raise e => Raise e
   end).

(** [for x in xs: body(x)] *)
Fixpoint for_each {A} (xs : list A) (body : A -> M unit) : M unit :=
  match xs with
  | [] => mret tt
  | x :: rest => body x ;; for_each rest body
  end.

(** [[f(x) for x in xs]] with an [f] that may raise: left to right, the
    first exception ends the comprehension. *)
Fixpoint comprehension {A B} (f : A -> result B) (xs : list A)
  : result (list B) :=
  match xs with
  | [] => Ok []
  | x :: rest =>
      match f x with
      | Raise e => Raise e
      | Ok y =>
          match comprehension f rest with
          | Raise e => Raise e
          | Ok ys => Ok (y :: ys)
          end
      end
  end.

Definition not_None {A} (o : option A) : bool :=
  match o with Some _ => true | None => false end.

(** [str(x)] inside an f-string, for an optional text and for an integer. *)
Definition str_opt (o : option string) : string :=
  match o with Some s => s | None => "None" end.

Definition str_int (z : Z) : string := NilZero.string_of_int (Z.to_int z).

(** [requests.codes.ok] *)
Definition requests_codes_ok : Z := 200.

(** ** The dispatch operations *)

(** The messages of the module's own [raise] statements in [send_sms]. *)
Definition MissingRecipients : exn :=
  ValueError "Please provide recipient phone number(s).".

Definition MissingConnectionString : exn :=
  EnvironmentError
    "Cannot load Azure SMS connection string from environment variables.".

Definition MissingSmsNumber : exn :=
  EnvironmentError "Cannot load Azure SMS number from environment variables.".

(** [res.json().get("error")]: decoding raises on a body that is not
    JSON, and only a [dict] has [get]. *)
Definition json_get_error (res : Response) : result (option json) :=
  match json_body res with
  | None => Raise JSONDecodeError
  | Some (JObject fields) => Ok (fields !! "error")
  | Some _ => Raise AttributeError
  end.

(** The collaborators.  Each answers a call either with a failure or with
    its return value.  [as_string] is [msg.as_string()], which raises on
    a header it cannot render; [smtp_sendmail] receives the rendered
    text; [smtp_quit] is the [QUIT] sent when the [with] block of
    [send_email] is left, on the session with the given host and port: a
    failure is a reply other than 221, which [smtplib] raises as an
    exception.  [str_json] is Python's [str] on a decoded JSON value. *)
Record Collaborators : Type := {
  SMTP_SSL : string -> Z -> transport_failure + unit;
  smtp_login : option string -> option string -> transport_failure + unit;
  as_string : MIMEText -> transport_failure + string;
  smtp_sendmail :
    option string -> list string -> string -> transport_failure + unit;
  smtp_quit : string -> Z -> transport_failure + unit;
  SmsClient_from_connection_string : string -> transport_failure + unit;
  SmsClient_send :
    string -> string -> Recipients -> string ->
    transport_failure + list SmsSendResult;
  requests_post :
    string -> list (string * string) -> list (string * option string) ->
    transport_failure + Response;
  str_json : json -> string
}.

(** The addresses or numbers of a recipients argument, in order. *)
Definition recipient_items (r : Recipients) : list string :=
  match r with
  | RStr s => [s]
  | RList l => l
  end.

(** An event of an SMTP session agrees with the given host, port and
    credentials. *)
Definition email_event_uses (host : string) (port : Z)
    (sender password : option string) (ev : event) : Prop :=
  match ev with
  | SmtpConnect h p => h = host /\ p = port
  | SmtpLogin u q => u = sender /\ q = password
  | SmtpSendmail f _ m => f = sender /\ mime_From m = sender
  | _ => True
  end.

(** An SMS send event carries the given sender, recipients and text. *)
Definition sms_event_uses (from_ : string) (to_ : Recipients)
    (message : string) (ev : event) : Prop :=
  match ev with
  | SmsSend f t m => f = from_ /\ t = to_ /\ m = message
  | _ => True
  end.

Section Dispatch.

Variable W : Collaborators.

Definition send_email (smtp_host : string) (sender password : option string)
    (recipients : Recipients) (body : string) (subject : option string)
    (smtp_port : Z) : M unit :=
  let recipients :=
    match recipients with
    | RStr s => [s]
    | RList l => l
    end in
  let msg := {| mime_payload := body;
                mime_From := sender;
                mime_Subject := subject;
                mime_To := str_join ", " recipients |} in
  call (SmtpConnect smtp_host smtp_port) (SMTP_SSL W smtp_host smtp_port) ;;
  finally
    (call (SmtpLogin sender password) (smtp_login W sender password) ;;
     text ← lift (match as_string W msg with
                  | inl f => Raise (TransportError f)
                  | inr text => Ok text
                  end);
     call (SmtpSendmail sender recipients msg)
          (smtp_sendmail W sender recipients text))
    (call SmtpQuit (smtp_quit W smtp_host smtp_port)) ;;
  emit (Log DEBUG ("Message with text " ++ body ++ " sent to "
                   ++ mime_To msg ++ ".")).

Definition gmail_missing_message : string :=
  "Cannot retrieve GMail credentials from environment variables, and no GMail credentials were "
  ++ "provided, so cannot send email.".

Definition send_gmail (environ : gmap string string)
    (recipients : Recipients) (body : string) (subject : option string)
    (sender password : option string) : M unit :=
  '(sender, password) ←
    (if not_None sender && not_None password
     then
       emit (Log DEBUG
         "Sending GMail using sender and password provided as arguments.") ;;
       mret (sender, password)
     else mret (environ !! "GMAIL_USERNAME", environ !! "GMAIL_PASSWORD"));
  (if negb (not_None sender) || negb (not_None password)
   then emit (Log ERROR gmail_missing_message)
   else mret tt) ;;
  send_email "smtp.gmail.com" sender password recipients body subject 465.

(** The sender and password [send_gmail] hands to [send_email]. *)
Definition gmail_credentials (environ : gmap string string)
    (sender password : option string) : option string * option string :=
  if not_None sender && not_None password
  then (sender, password)
  else (environ !! "GMAIL_USERNAME", environ !! "GMAIL_PASSWORD").

(** The recipients [send_sms] works with: the argument, else the
    [SMS_NUMBER] variable (a single string). *)
Definition sms_recipients (environ : gmap string string)
    (recipients : option Recipients) : option Recipients :=
  match recipients with
  | None => RStr <$> (environ !! "SMS_NUMBER")
  | Some r => Some r
  end.

Definition validate_recipients (recipients : Recipients)
  : result Recipients :=
  match recipients with
  | RStr s =>
      match _validate_phone_number s with
      | Ok s' => Ok (RStr s')
      | Raise e => Raise e
      end
  | RList l =>
      match comprehension _validate_phone_number l with
      | Ok l' => Ok (RList l')
      | Raise e => Raise e
      end
  end.

Definition log_sms_response (body : string) (resp : SmsSendResult)
  : M unit :=
  if negb (successful resp)
  then emit (Log ERROR
         ("Encountered error while sending SMS message to " ++ dquote
          ++ to resp ++ dquote ++ ": " ++ str_opt (error_message resp)))
  else emit (Log DEBUG
         ("SMS Message " ++ dquote ++ body ++ dquote
          ++ " successfully sent to " ++ dquote ++ to resp ++ dquote
          ++ ".")).

Definition send_sms (environ : gmap string string) (body : string)
    (recipients : option Recipients) : M (list SmsSendResult) :=
  match sms_recipients environ recipients with
  | None => raise MissingRecipients
  | Some recipients =>
      recipients ← lift (validate_recipients recipients);
      match environ !! "AZURE_SMS_CONNECTION_STRING" with
      | None => raise MissingConnectionString
      | Some azure_sms_connection_string =>
          match environ !! "AZURE_SMS_NUMBER" with
          | None => raise MissingSmsNumber
          | Some azure_sms_number =>
              azure_sms_number ←
                lift (_validate_phone_number azure_sms_number);
              call (SmsClientCreate azure_sms_connection_string)
                   (SmsClient_from_connection_string W
                      azure_sms_connection_string) ;;
              sms_responses ←
                call (SmsSend azure_sms_number recipients body)
                     (SmsClient_send W azure_sms_connection_string
                        azure_sms_number recipients body);
              for_each sms_responses (log_sms_response body) ;;
              mret sms_responses
          end
      end
  end.

Definition pushover_url : string :=
  "https://api.pushover.net/1/messages.json".

Definition pushover_headers : list (string * string) :=
  [("Content-Type", "application/x-www-form-urlencoded")].

Definition pushover_payload (api_token user_key : option string)
    (message : string) : list (string * option string) :=
  [("token", api_token); ("user", user_key);
   ("message", Some message); ("sound", Some "bugle")].

Definition pushover_error_message (res : Response) (err : option json)
  : string :=
  "Pushover API encountered an error, returned status code "
  ++ str_int (status_code res) ++ ": "
  ++ match err with
     | None => "None"
     | Some v => str_json W v
     end.

Definition send_pushover (environ : gmap string string) (message : string)
    (api_token user_key : option string) : M Response :=
  user_key ←
    match user_key with
    | None =>
        emit (Log DEBUG
          "Using Pushover user key from environment variables.") ;;
        mret (environ !! "PUSHOVER_USER_KEY")
    | Some _ =>
        emit (Log DEBUG
          "Using Pushover user key provided via input parameter.") ;;
        mret user_key
    end;
  api_token ←
    match api_token with
    | None =>
        emit (Log DEBUG
          "Using Pushover API token from environment variables.") ;;
        mret (environ !! "PUSHOVER_API_KEY")
    | Some _ =>
        emit (Log DEBUG
          "Using Pushover API token provided via input parameter.") ;;
        mret api_token
    end;
  let payload := pushover_payload api_token user_key message in
  res ← call (HttpPost pushover_url pushover_headers payload)
             (requests_post W pushover_url pushover_headers payload);
  (if negb (status_code res =? requests_codes_ok)%Z
   then
     err ← lift (json_get_error res);
     emit (Log ERROR (pushover_error_message res err))
   else emit (Log DEBUG "Message successfully sent via Pushover.")) ;;
  mret res.

End Dispatch.

(** The token and user key [send_pushover] posts: each argument, or the
    variable standing in for an absent one. *)
Definition pushover_credentials (environ : gmap string string)
    (api_token user_key : option string) : option string * option string :=
  (match api_token with
   | None => environ !! "PUSHOVER_API_KEY"
   | Some _ => api_token
   end,
   match user_key with
   | None => environ !! "PUSHOVER_USER_KEY"
   | Some _ => user_key
   end).

(** ** Sample collaborators and environments

    Concrete collaborators and environments on which the operations can
    be run. *)

Definition sample_result (number : string) (ok : bool) : SmsSendResult :=
  {| to := number;
     message_id := if ok then Some "m-1" else None;
     http_status_code := if ok then 202 else 400;
     successful := ok;
     error_message := if ok then None else Some "Invalid To phone number" |}.

(** Every collaborator accepts; the SMS service reports success for the
    first recipient only; the HTTP endpoint answers 400 with the JSON
    body [{"error": "bad token"}]. *)
Definition accepting : Collaborators :=
  {| SMTP_SSL := fun _ _ => inr tt;
     smtp_login := fun _ _ => inr tt;
     as_string := fun msg => inr (mime_payload msg);
     smtp_sendmail := fun _ _ _ => inr tt;
     smtp_quit := fun _ _ => inr tt;
     SmsClient_from_connection_string := fun _ => inr tt;
     SmsClient_send := fun _ _ to_ _ =>
       inr (match recipient_items to_ with
            | [] => []
            | first :: others =>
                sample_result first true
                :: map (fun n => sample_result n false) others
            end);
     requests_post := fun _ _ _ =>
       inr {| status_code := 400;
              json_body := Some (JObject {[ "error" := JString "bad token" ]}) |};
     str_json := fun v => match v with JString s => s | _ => "?" end |}.

(** As [accepting], but the HTTP endpoint is behind a gateway that
    answers 502 with an HTML page. *)
Definition behind_bad_gateway : Collaborators :=
  {| SMTP_SSL := SMTP_SSL accepting;
     smtp_login := smtp_login accepting;
     as_string := as_string accepting;
     smtp_sendmail := smtp_sendmail accepting;
     smtp_quit := smtp_quit accepting;
     SmsClient_from_connection_string :=
       SmsClient_from_connection_string accepting;
     SmsClient_send := SmsClient_send accepting;
     requests_post := fun _ _ _ =>
       inr {| status_code := 502; json_body := None |};
     str_json := str_json accepting |}.

Definition env_gmail : gmap string string :=
  {[ "GMAIL_USERNAME" := "env@gmail.com"; "GMAIL_PASSWORD" := "env-secret" ]}.

Definition env_sms : gmap string string :=
  {[ "AZURE_SMS_CONNECTION_STRING" := "endpoint=https://sms.example/;accesskey=k";
     "AZURE_SMS_NUMBER" := "+1 (833) 555-0100";
     "SMS_NUMBER" := "555-123-4567" ]}.

(** ** Reading traces *)

Definition is_log (ev : event) : bool :=
  match ev with Log _ _ => true | _ => false end.

Definition is_sms_create (ev : event) : bool :=
  match ev with SmsClientCreate _ => true | _ => false end.

Definition is_sms_send (ev : event) : bool :=
  match ev with SmsSend _ _ _ => true | _ => false end.

Definition is_http_post (ev : event) : bool :=
  match ev with HttpPost _ _ _ => true | _ => false end.

Definition is_smtp_quit (ev : event) : bool :=
  match ev with SmtpQuit => true | _ => false end.

Definition is_smtp_sendmail (ev : event) : bool :=
  match ev with SmtpSendmail _ _ _ => true | _ => false end.

(** How many events of a trace satisfy [p]. *)
Definition count_events (p : event -> bool) (t : list event) : nat :=
  length (List.filter p t).

(** ** More sample collaborators *)

(** As [accepting], with the SMTP server refusing the login. *)
Definition refusing_login : Collaborators :=
  {| SMTP_SSL := SMTP_SSL accepting;
     smtp_login := fun _ _ => inl (TransportFailure "535 bad credentials");
     as_string := as_string accepting;
     smtp_sendmail := smtp_sendmail accepting;
     smtp_quit := smtp_quit accepting;
     SmsClient_from_connection_string :=
       SmsClient_from_connection_string accepting;
     SmsClient_send := SmsClient_send accepting;
     requests_post := requests_post accepting;
     str_json := str_json accepting |}.

(** As [accepting], with no SMTP server answering, an SMS client that
    cannot be created and an HTTP endpoint out of reach. *)
Definition unreachable : Collaborators :=
  {| SMTP_SSL := fun _ _ => inl (TransportFailure "connection refused");
     smtp_login := smtp_login accepting;
     as_string := as_string accepting;
     smtp_sendmail := smtp_sendmail accepting;
     smtp_quit := smtp_quit accepting;
     SmsClient_from_connection_string := fun _ =>
       inl (TransportFailure "malformed connection string");
     SmsClient_send := SmsClient_send accepting;
     requests_post := fun _ _ _ => inl (TransportFailure "no route to host");
     str_json := str_json accepting |}.

(** As [accepting], with the HTTP endpoint answering 200. *)
Definition pushover_accepting : Collaborators :=
  {| SMTP_SSL := SMTP_SSL accepting;
     smtp_login := smtp_login accepting;
     as_string := as_string accepting;
     smtp_sendmail := smtp_sendmail accepting;
     smtp_quit := smtp_quit accepting;
     SmsClient_from_connection_string :=
       SmsClient_from_connection_string accepting;
     SmsClient_send := SmsClient_send accepting;
     requests_post := fun _ _ _ =>
       inr {| status_code := 200;
              json_body := Some (JObject {[ "status" := JNumber 1 ]}) |};
     str_json := str_json accepting |}.

(** As [accepting], with the SMTP server answering the closing [QUIT]
    with a reply other than 221. *)
Definition refusing_quit : Collaborators :=
  {| SMTP_SSL := SMTP_SSL accepting;
     smtp_login := smtp_login accepting;
     as_string := as_string accepting;
     smtp_sendmail := smtp_sendmail accepting;
     smtp_quit := fun _ _ => inl (TransportFailure "421 service closing");
     SmsClient_from_connection_string :=
       SmsClient_from_connection_string accepting;
     SmsClient_send := SmsClient_send accepting;
     requests_post := requests_post accepting;
     str_json := str_json accepting |}.

(** As [accepting], with a message that cannot be rendered. *)
Definition unrenderable : Collaborators :=
  {| SMTP_SSL := SMTP_SSL accepting;
     smtp_login := smtp_login accepting;
     as_string := fun _ =>
       inl (TransportFailure "header value appears to contain an embedded header");
     smtp_sendmail := smtp_sendmail accepting;
     smtp_quit := smtp_quit accepting;
     SmsClient_from_connection_string :=
       SmsClient_from_connection_string accepting;
     SmsClient_send := SmsClient_send accepting;
     requests_post := requests_post accepting;
     str_json := str_json accepting |}.

Definition env_pushover : gmap string string :=
  {[ "PUSHOVER_API_KEY" := "env-token"; "PUSHOVER_USER_KEY" := "env-user" ]}.

(** * Properties *)

(** ** The normalizer *)

Section StringFacts.

Lemma append_empty_r (s : string) : s ++ EmptyString = s.
Proof. induction s as [|c s IH]; simpl; [reflexivity | now rewrite IH]. Qed.

Lemma append_assoc (a b c : string) : (a ++ b) ++ c = a ++ (b ++ c).
Proof. induction a as [|x a IH]; simpl; [reflexivity | now rewrite IH]. Qed.

Lemma length_append (a b : string) :
  String.length (a ++ b) = (String.length a + String.length b)%nat.
Proof. induction a as [|x a IH]; simpl; [reflexivity | now rewrite IH]. Qed.

Lemma all_digits_append (a b : string) :
  all_digits (a ++ b) = all_digits a && all_digits b.
Proof.
  induction a as [|x a IH]; simpl; [reflexivity |].
  rewrite IH. now rewrite andb_assoc.
Qed.

End StringFacts.

Lemma join_emit_run (run : string) (rest : list string) :
  join_empty (emit_run run rest) = run ++ join_empty rest.
Proof. destruct run; reflexivity. Qed.

(** Joining what the scan finds gives back the pending run followed by
    the digits of the rest of the input. *)
Lemma join_findall_runs (s run : string) :
  join_empty (findall_runs run s) = run ++ digits_only s.
Proof.
  revert run. induction s as [|c s IH]; intros run; simpl.
  - rewrite join_emit_run. reflexivity.
  - destruct (is_digit c).
    + rewrite IH, append_assoc. reflexivity.
    + rewrite join_emit_run, IH. reflexivity.
Qed.

Lemma digit_concat_digits_only (s : string) :
  digit_concat s = digits_only s.
Proof. unfold digit_concat, re_findall_digits. apply join_findall_runs. Qed.

Lemma all_digits_digits_only (s : string) : all_digits (digits_only s) = true.
Proof.
  induction s as [|c s IH]; simpl; [reflexivity |].
  destruct (is_digit c) eqn:E; simpl; [rewrite E |]; exact IH.
Qed.

Lemma digits_only_all_digits (s : string) :
  all_digits s = true -> digits_only s = s.
Proof.
  induction s as [|c s IH]; simpl; [reflexivity |].
  intros H. apply andb_prop in H as [Hc Hs]. rewrite Hc, IH; auto.
Qed.

Lemma has_digit_digits_only (s : string) :
  has_digit s = true <-> digits_only s <> EmptyString.
Proof.
  induction s as [|c s IH]; simpl.
  - split; [discriminate | congruence].
  - destruct (is_digit c); simpl; [split; [discriminate | reflexivity] |].
    exact IH.
Qed.

(** Every match of [\d+] is a non-empty run of digits. *)
Lemma findall_runs_matches (s run : string) :
  all_digits run = true ->
  Forall (fun m => m <> EmptyString /\ all_digits m = true)
         (findall_runs run s).
Proof.
  revert run. induction s as [|c s IH]; intros run Hrun; simpl.
  - destruct run; simpl; [constructor |].
    constructor; [split; [discriminate | exact Hrun] | constructor].
  - destruct (is_digit c) eqn:E.
    + apply IH. rewrite all_digits_append, Hrun. simpl. now rewrite E.
    + destruct run; simpl; [now apply IH |].
      constructor; [split; [discriminate | exact Hrun] | now apply IH].
Qed.

(** The scan finds nothing exactly when the input has no digit. *)
Lemma findall_nil_iff (s : string) :
  re_findall_digits s = [] <-> has_digit s = false.
Proof.
  split.
  - intros H. destruct (has_digit s) eqn:E; [| reflexivity].
    apply has_digit_digits_only in E.
    rewrite <- digit_concat_digits_only in E.
    unfold digit_concat in E. rewrite H in E. now contradiction E.
  - intros H. destruct (re_findall_digits s) as [|m ms] eqn:E; [reflexivity |].
    pose proof (findall_runs_matches s EmptyString eq_refl) as F.
    fold (re_findall_digits s) in F. rewrite E in F.
    apply Forall_cons_1 in F as [[Hm _] _].
    assert (D : digits_only s = EmptyString).
    { destruct (digits_only s) eqn:D; [reflexivity |].
      assert (has_digit s = true) by (apply has_digit_digits_only; congruence).
      congruence. }
    rewrite <- digit_concat_digits_only in D. unfold digit_concat in D.
    rewrite E in D. simpl in D. destruct m; [congruence | discriminate].
Qed.

(** What the source computes, by cases on whether a digit was found. *)
Lemma validate_with_digit (raw : string) :
  has_digit raw = true ->
  _validate_phone_number raw =
    let d := digit_concat raw in
    if ((String.length d <? 10)%nat || (12 <? String.length d)%nat)%bool
    then Raise (InvalidPhoneNumber d)
    else Ok ("+" ++ (if (String.length d =? 10)%nat then "1" ++ d else d)).
Proof.
  intros H. unfold _validate_phone_number, digit_concat.
  destruct (re_findall_digits raw) as [|m ms] eqn:E; [| reflexivity].
  apply findall_nil_iff in E. congruence.
Qed.

Lemma validate_without_digit (raw : string) :
  has_digit raw = false ->
  _validate_phone_number raw =
    if ((String.length raw <? 10)%nat || (12 <? String.length raw)%nat)%bool
    then Raise (InvalidPhoneNumber raw)
    else Ok ("+" ++ (if (String.length raw =? 10)%nat
                     then "1" ++ raw else raw)).
Proof.
  intros H. unfold _validate_phone_number.
  apply findall_nil_iff in H. rewrite H. reflexivity.
Qed.

Lemma length_in_range_has_digit (raw : string) :
  length_in_range (String.length (digit_concat raw)) -> has_digit raw = true.
Proof.
  unfold length_in_range. intros H. apply has_digit_digits_only.
  rewrite <- digit_concat_digits_only. intros E. rewrite E in H. simpl in H. lia.
Qed.

(** Any failure of the normalizer is an [InvalidPhoneNumber]. *)
Lemma validate_raise_invalid (raw : string) (e : exn) :
  _validate_phone_number raw = Raise e ->
  exists shown, e = InvalidPhoneNumber shown.
Proof.
  unfold _validate_phone_number.
  destruct (re_findall_digits raw);
    match goal with |- context [if ?b then _ else _] => destruct b end;
    intros H; inversion H; eauto.
Qed.

(** With a digit in the input, the normalizer fails exactly when the digit
    concatenation is shorter than 10 or longer than 12. *)
Lemma validate_fails_iff_with_digit (raw : string) :
  has_digit raw = true ->
  (fails_invalid_phone (_validate_phone_number raw)
   <-> ~ length_in_range (String.length (digit_concat raw))).
Proof.
  intros H. rewrite (validate_with_digit raw H). cbv zeta.
  unfold length_in_range, fails_invalid_phone.
  destruct (String.length (digit_concat raw) <? 10)%nat eqn:E1;
    [apply Nat.ltb_lt in E1 | apply Nat.ltb_ge in E1];
    (destruct (12 <? String.length (digit_concat raw))%nat eqn:E2;
     [apply Nat.ltb_lt in E2 | apply Nat.ltb_ge in E2]); simpl.
  1-3: split; [intros _; lia | intros _; eauto].
  split; [intros [shown Hs]; discriminate | intros N; exfalso; apply N; lia].
Qed.

(** The successful branch: with 10 to 12 digits found, the result is a
    plus sign and a string [x] of 11 or 12 digits, [x] being the digit
    concatenation, after a ["1"] when there are ten digits. *)
Lemma validate_in_range (raw : string) :
  length_in_range (String.length (digit_concat raw)) ->
  exists x,
    _validate_phone_number raw = Ok (String "+" x)
    /\ x = (if (String.length (digit_concat raw) =? 10)%nat
            then "1" ++ digit_concat raw else digit_concat raw)
    /\ all_digits x = true
    /\ (11 <= String.length x <= 12)%nat.
Proof.
  intros H. pose proof (length_in_range_has_digit raw H) as Hd.
  rewrite (validate_with_digit raw Hd). cbv zeta.
  pose proof (all_digits_digits_only raw) as Hall.
  rewrite <- digit_concat_digits_only in Hall.
  unfold length_in_range in H.
  destruct (String.length (digit_concat raw) <? 10)%nat eqn:E1;
    [apply Nat.ltb_lt in E1; lia |].
  destruct (12 <? String.length (digit_concat raw))%nat eqn:E2;
    [apply Nat.ltb_lt in E2; lia |].
  simpl. eexists. split; [reflexivity |]. split; [reflexivity |].
  destruct (String.length (digit_concat raw) =? 10)%nat eqn:E3.
  - apply Nat.eqb_eq in E3. simpl. rewrite Hall. split; [reflexivity | lia].
  - apply Nat.eqb_neq in E3. simpl. split; [exact Hall | lia].
Qed.

(** A canonical number is a fixed point of the normalizer. *)
Lemma validate_canonical (x : string) :
  all_digits x = true -> (11 <= String.length x <= 12)%nat ->
  _validate_phone_number (String "+" x) = Ok (String "+" x).
Proof.
  intros Hall Hlen.
  assert (D : digit_concat (String "+" x) = x).
  { rewrite digit_concat_digits_only. simpl. now apply digits_only_all_digits. }
  assert (Hd : has_digit (String "+" x) = true).
  { apply has_digit_digits_only. rewrite <- digit_concat_digits_only, D.
    destruct x; [simpl in Hlen; lia | discriminate]. }
  rewrite (validate_with_digit _ Hd). cbv zeta. rewrite D.
  destruct (String.length x <? 10)%nat eqn:E1;
    [apply Nat.ltb_lt in E1; lia |].
  destruct (12 <? String.length x)%nat eqn:E2;
    [apply Nat.ltb_lt in E2; lia |].
  destruct (String.length x =? 10)%nat eqn:E3;
    [apply Nat.eqb_eq in E3; lia |].
  reflexivity.
Qed.

(** C1 (the code departs from the claim): an input without any digit has
    an empty digit concatenation, of length 0, outside 10..12, and yet
    the ten-letter input below is accepted: the raw text is kept when no
    digit run is found, and its own length is what gets tested. *)
Theorem validate_accepts_ten_letters :
  re_findall_digits "abcdefghij" = []
  /\ digit_concat "abcdefghij" = EmptyString
  /\ ~ length_in_range (String.length (digit_concat "abcdefghij"))
  /\ _validate_phone_number "abcdefghij" = Ok "+1abcdefghij"
  /\ ~ fails_invalid_phone (_validate_phone_number "abcdefghij").
Proof.
  repeat split; try reflexivity.
  - unfold length_in_range. simpl. lia.
  - intros [shown H]. discriminate H.
Qed.

(** C2: when the digit concatenation [d] of the input has 10, 11 or 12
    characters, the normalizer succeeds, returning ["+1" ++ d] for ten
    digits and ["+" ++ d] otherwise; the result matches
    [^\+\d{11,12}$]. *)
Theorem validate_success_shape (raw : string) :
  length_in_range (String.length (digit_concat raw)) ->
  _validate_phone_number raw =
    Ok (if (String.length (digit_concat raw) =? 10)%nat
        then "+1" ++ digit_concat raw
        else "+" ++ digit_concat raw)
  /\ exists r, _validate_phone_number raw = Ok r
               /\ matches_plus_digits_11_12 r = true.
Proof.
  intros H. destruct (validate_in_range raw H) as (x & Hv & Hx & Hall & Hlen).
  split.
  - rewrite Hv, Hx.
    destruct (String.length (digit_concat raw) =? 10)%nat; reflexivity.
  - exists (String "+" x). split; [exact Hv |].
    unfold matches_plus_digits_11_12. rewrite Hall.
    change (Ascii.eqb "+" "+") with true. cbv beta iota delta [andb].
    destruct (Nat.leb_spec 11 (String.length x)) as [_|N]; [| lia].
    apply Nat.leb_le. lia.
Qed.

Lemma validate_success_shape_witness :
  length_in_range (String.length (digit_concat "555-123-4567"))
  /\ _validate_phone_number "555-123-4567" = Ok "+15551234567".
Proof.
  assert (R : length_in_range (String.length (digit_concat "555-123-4567")))
    by (unfold length_in_range; simpl; lia).
  split; [exact R |].
  exact (proj1 (validate_success_shape "555-123-4567" R)).
Defined.

(** C10: on an input that contains a digit and whose digit concatenation
    has 10 to 12 characters, normalizing the normalized number gives the
    normalized number again. *)
Theorem validate_idempotent (raw : string) :
  has_digit raw = true ->
  length_in_range (String.length (digit_concat raw)) ->
  is_ok (_validate_phone_number raw) = true
  /\ and_then (_validate_phone_number raw) _validate_phone_number
     = _validate_phone_number raw.
Proof.
  intros _ H. destruct (validate_in_range raw H) as (x & Hv & _ & Hall & Hlen).
  rewrite Hv. simpl. split; [reflexivity |].
  now apply validate_canonical.
Qed.

Lemma validate_idempotent_witness :
  has_digit "+44 20 7946 0958" = true
  /\ length_in_range (String.length (digit_concat "+44 20 7946 0958"))
  /\ and_then (_validate_phone_number "+44 20 7946 0958")
       _validate_phone_number = Ok "+442079460958".
Proof.
  assert (D : has_digit "+44 20 7946 0958" = true) by reflexivity.
  assert (R : length_in_range
                (String.length (digit_concat "+44 20 7946 0958")))
    by (unfold length_in_range; simpl; lia).
  split; [exact D |]. split; [exact R |].
  rewrite (proj2 (validate_idempotent "+44 20 7946 0958" D R)).
  reflexivity.
Defined.

(** ** The monad *)

Lemma bind_mret {A B} (a : A) (k : A -> M B) : (mret a ≫= k) = k a.
Proof. unfold mbind, M_bind, mret, M_ret. now destruct (k a). Qed.

Lemma bind_lift_ok {A B} (a : A) (k : A -> M B) : (lift (Ok a) ≫= k) = k a.
Proof. apply bind_mret. Qed.

Lemma bind_lift_raise {A B} (e : exn) (k : A -> M B) :
  (lift (Raise e) ≫= k) = raise e.
Proof. reflexivity. Qed.

Lemma trace_bind {A B} (m : M A) (k : A -> M B) :
  trace (m ≫= k)
  = (trace m ++ match outcome m with
                | Ok a => trace (k a)
                | Raise _ => []
                end)%list.
Proof.
  destruct m as [t [a|e]]; unfold mbind, M_bind, trace, outcome; simpl.
  - now destruct (k a).
  - now rewrite app_nil_r.
Qed.

Lemma outcome_bind {A B} (m : M A) (k : A -> M B) :
  outcome (m ≫= k)
  = match outcome m with
    | Ok a => outcome (k a)
    | Raise e => Raise e
    end.
Proof.
  destruct m as [t [a|e]]; unfold mbind, M_bind, trace, outcome; simpl.
  - now destruct (k a).
  - reflexivity.
Qed.

Lemma trace_call {A} (ev : event) (answer : transport_failure + A) :
  trace (call ev answer) = [ev].
Proof. reflexivity. Qed.

Lemma outcome_call_raise {A} (ev : event) (answer : transport_failure + A)
    (e : exn) :
  outcome (call ev answer) = Raise e -> exists f, e = TransportError f.
Proof.
  destruct answer as [f|a]; simpl; intros H; inversion H. now exists f.
Qed.

(** ** [send_email] and [send_gmail] *)

(** Case analysis on every answer of the SMTP collaborators that the goal
    mentions. *)
Ltac destruct_smtp W :=
  repeat match goal with
    | |- context [SMTP_SSL W ?a ?b] =>
        destruct (SMTP_SSL W a b) as [?|[]]
    | |- context [smtp_login W ?a ?b] =>
        destruct (smtp_login W a b) as [?|[]]
    | |- context [as_string W ?a] =>
        destruct (as_string W a) as [?|?]
    | |- context [smtp_sendmail W ?a ?b ?c] =>
        destruct (smtp_sendmail W a b c) as [?|[]]
    | |- context [smtp_quit W ?a ?b] =>
        destruct (smtp_quit W a b) as [?|[]]
    end.

Section EmailFacts.

Variable W : Collaborators.

(** Every way a call of [send_email] can go.  A refused connection ends
    it.  Otherwise the block runs up to its first failure (login,
    rendering of the message, hand-over), then [QUIT] is sent; a failing
    [QUIT] is what the call raises, and else the block's failure is, or
    the success is logged. *)
Lemma send_email_run (host : string) (sender password : option string)
    (r : Recipients) (body : string) (subject : option string) (port : Z) :
  send_email W host sender password r body subject port
  = let items := recipient_items r in
    let msg := {| mime_payload := body;
                  mime_From := sender;
                  mime_Subject := subject;
                  mime_To := str_join ", " items |} in
    match SMTP_SSL W host port with
    | inl f => ([SmtpConnect host port], Raise (TransportError f))
    | inr _ =>
        let block : M unit :=
          match smtp_login W sender password with
          | inl f => ([SmtpLogin sender password], Raise (TransportError f))
          | inr _ =>
              match as_string W msg with
              | inl f =>
                  ([SmtpLogin sender password], Raise (TransportError f))
              | inr text =>
                  match smtp_sendmail W sender items text with
                  | inl f =>
                      ([SmtpLogin sender password;
                        SmtpSendmail sender items msg],
                       Raise (TransportError f))
                  | inr _ =>
                      ([SmtpLogin sender password;
                        SmtpSendmail sender items msg],
                       Ok tt)
                  end
              end
          end in
        match smtp_quit W host port with
        | inl q =>
            ((SmtpConnect host port :: trace block ++ [SmtpQuit])%list,
             Raise (TransportError q))
        | inr _ =>
            match outcome block with
            | Ok _ =>
                ((SmtpConnect host port :: trace block
                    ++ [SmtpQuit;
                        Log DEBUG ("Message with text " ++ body
                                   ++ " sent to " ++ str_join ", " items
                                   ++ ".")])%list,
                 Ok tt)
            | Raise e =>
                ((SmtpConnect host port :: trace block ++ [SmtpQuit])%list,
                 Raise e)
            end
        end
    end.
Proof.
  unfold send_email, recipient_items, call, finally, emit, lift, mbind,
    M_bind, trace, outcome.
  cbv zeta.
  destruct (SMTP_SSL W host port) as [f|[]]; [reflexivity |].
  destruct (smtp_login W sender password) as [f|[]];
    [destruct (smtp_quit W host port) as [q|[]]; reflexivity |].
  match goal with
  | |- context [as_string W ?m] => destruct (as_string W m) as [f|text]
  end; [destruct (smtp_quit W host port) as [q|[]]; reflexivity |].
  cbn [fst snd app].
  destruct (smtp_sendmail W sender
              (match r with RStr s => [s] | RList l => l end) text)
    as [f|[]];
    destruct (smtp_quit W host port) as [q|[]]; reflexivity.
Qed.

(** What an SMTP session of [send_email] looks like: it starts by
    connecting to the given host and port, every later step uses the
    credentials it was given, and only a collaborator can make it
    raise. *)
Lemma send_email_session (host : string) (sender password : option string)
    (r : Recipients) (body : string) (subject : option string) (port : Z) :
  let run := send_email W host sender password r body subject port in
  (exists rest, trace run = SmtpConnect host port :: rest)
  /\ Forall (email_event_uses host port sender password) (trace run)
  /\ (forall e, outcome run = Raise e -> exists f, e = TransportError f).
Proof.
  cbv zeta. rewrite send_email_run. cbv zeta.
  destruct_smtp W; cbn [trace outcome fst snd app];
    (split; [eauto |]); (split; [repeat constructor |]);
    intros e H; inversion H; eauto.
Qed.

(** The configuration is consulted for both fields as soon as one of the
    two arguments is left out. *)
Lemma gmail_credentials_fallback (environ : gmap string string)
    (sender password : option string) :
  sender = None \/ password = None ->
  gmail_credentials environ sender password
  = (environ !! "GMAIL_USERNAME", environ !! "GMAIL_PASSWORD").
Proof.
  unfold gmail_credentials.
  intros [-> | ->]; [reflexivity |]. now destruct sender.
Qed.

(** A field missing under the per-field reading (argument absent and
    variable unset) is missing for the code as well. *)
Lemma gmail_per_field_missing (environ : gmap string string)
    (sender password : option string) :
  (sender = None /\ environ !! "GMAIL_USERNAME" = None)
  \/ (password = None /\ environ !! "GMAIL_PASSWORD" = None) ->
  fst (gmail_credentials environ sender password) = None
  \/ snd (gmail_credentials environ sender password) = None.
Proof.
  intros [[-> H] | [-> H]].
  - left. unfold gmail_credentials. simpl. exact H.
  - right. rewrite gmail_credentials_fallback by now right. exact H.
Qed.

(** [send_gmail] for any arguments: at most two log lines, then
    [send_email] on [smtp.gmail.com]:465 with the resolved credentials. *)
Lemma send_gmail_run (environ : gmap string string)
    (r : Recipients) (body : string) (subject : option string)
    (sender password : option string) :
  send_gmail W environ r body subject sender password
  = ((if not_None sender && not_None password
      then emit (Log DEBUG
             "Sending GMail using sender and password provided as arguments.")
      else mret tt) ;;
     (if negb (not_None (fst (gmail_credentials environ sender password)))
         || negb (not_None (snd (gmail_credentials environ sender password)))
      then emit (Log ERROR gmail_missing_message)
      else mret tt) ;;
     send_email W "smtp.gmail.com"
       (fst (gmail_credentials environ sender password))
       (snd (gmail_credentials environ sender password))
       r body subject 465).
Proof.
  unfold send_gmail, gmail_credentials.
  destruct (not_None sender && not_None password) eqn:Hboth.
  - destruct sender as [s|], password as [p|]; try discriminate Hboth.
    unfold emit, mbind, M_bind, mret, M_ret. cbn -[send_email].
    now destruct (send_email W "smtp.gmail.com" (Some s) (Some p) r body
                    subject 465).
  - rewrite !bind_mret. reflexivity.
Qed.

(** Whatever the arguments, the session is with [smtp.gmail.com]:465,
    uses the resolved credentials at every step, and only a collaborator
    can make the call raise. *)
Lemma send_gmail_session (environ : gmap string string)
    (r : Recipients) (body : string) (subject : option string)
    (sender password : option string) :
  In (SmtpConnect "smtp.gmail.com" 465)
     (trace (send_gmail W environ r body subject sender password))
  /\ Forall (email_event_uses "smtp.gmail.com" 465
               (fst (gmail_credentials environ sender password))
               (snd (gmail_credentials environ sender password)))
       (trace (send_gmail W environ r body subject sender password))
  /\ (forall e,
        outcome (send_gmail W environ r body subject sender password)
        = Raise e ->
        exists f, e = TransportError f).
Proof.
  rewrite send_gmail_run.
  destruct (send_email_session "smtp.gmail.com"
              (fst (gmail_credentials environ sender password))
              (snd (gmail_credentials environ sender password))
              r body subject 465) as ([rest Hc] & Hall & Hraise).
  rewrite !trace_bind, !outcome_bind.
  destruct (not_None sender && not_None password);
    destruct (negb (not_None (fst (gmail_credentials environ sender password)))
              || negb (not_None
                         (snd (gmail_credentials environ sender password))));
    cbn [emit mret M_ret trace outcome fst snd app]; rewrite Hc in *;
    (split; [simpl; auto |]); (split; [| exact Hraise]);
    repeat (constructor; [exact I |]); exact Hall.
Qed.

(** C3, amended: the arguments take priority over the configuration as a
    pair.  When both [sender] and [password] are supplied they are the
    credentials of the send, whatever [GMAIL_USERNAME] and
    [GMAIL_PASSWORD] hold: the call is [send_email] on
    [smtp.gmail.com]:465 with them, and every step of the session uses
    them.  When either is left out, the session uses the two configured
    values, a value supplied for the other field included. *)
Theorem gmail_explicit_pair_used (environ : gmap string string)
    (r : Recipients) (body : string) (subject : option string)
    (s p : string) :
  send_gmail W environ r body subject (Some s) (Some p)
  = (emit (Log DEBUG
       "Sending GMail using sender and password provided as arguments.") ;;
     send_email W "smtp.gmail.com" (Some s) (Some p) r body subject 465)
  /\ Forall (email_event_uses "smtp.gmail.com" 465 (Some s) (Some p))
       (trace (send_gmail W environ r body subject (Some s) (Some p)))
  /\ In (SmtpConnect "smtp.gmail.com" 465)
       (trace (send_gmail W environ r body subject (Some s) (Some p)))
  /\ (forall sender password,
        sender = None \/ password = None ->
        Forall (email_event_uses "smtp.gmail.com" 465
                  (environ !! "GMAIL_USERNAME") (environ !! "GMAIL_PASSWORD"))
          (trace (send_gmail W environ r body subject sender password))).
Proof.
  split.
  { rewrite send_gmail_run. cbn [gmail_credentials not_None andb negb orb
                                  fst snd].
    now rewrite bind_mret. }
  destruct (send_gmail_session environ r body subject (Some s) (Some p))
    as (Hin & Hall & _).
  split; [exact Hall |]. split; [exact Hin |].
  intros sender password Hnone.
  destruct (send_gmail_session environ r body subject sender password)
    as (_ & Hall' & _).
  now rewrite (gmail_credentials_fallback environ sender password Hnone)
    in Hall'.
Qed.

(** C4: when the credentials [send_gmail] ends up with lack the sender or
    the password, it raises nothing of its own: it logs the error and
    calls [send_email] on [smtp.gmail.com]:465 with what it has, absent
    values included. *)
Theorem gmail_fail_soft (environ : gmap string string)
    (r : Recipients) (body : string) (subject : option string)
    (sender password : option string) :
  fst (gmail_credentials environ sender password) = None
  \/ snd (gmail_credentials environ sender password) = None ->
  send_gmail W environ r body subject sender password
  = (emit (Log ERROR gmail_missing_message) ;;
     send_email W "smtp.gmail.com"
       (fst (gmail_credentials environ sender password))
       (snd (gmail_credentials environ sender password))
       r body subject 465)
  /\ In (Log ERROR gmail_missing_message)
       (trace (send_gmail W environ r body subject sender password))
  /\ In (SmtpConnect "smtp.gmail.com" 465)
       (trace (send_gmail W environ r body subject sender password))
  /\ Forall (email_event_uses "smtp.gmail.com" 465
               (fst (gmail_credentials environ sender password))
               (snd (gmail_credentials environ sender password)))
       (trace (send_gmail W environ r body subject sender password))
  /\ (forall e,
        outcome (send_gmail W environ r body subject sender password)
        = Raise e ->
        exists f, e = TransportError f).
Proof.
  intros Hmiss.
  assert (Hnot : not_None sender && not_None password = false).
  { destruct sender, password; try reflexivity.
    unfold gmail_credentials in Hmiss. simpl in Hmiss.
    destruct Hmiss; discriminate. }
  assert (Herr : negb (not_None
                         (fst (gmail_credentials environ sender password)))
                 || negb (not_None
                            (snd (gmail_credentials environ sender password)))
                 = true).
  { destruct Hmiss as [-> | ->]; [reflexivity |]. apply orb_true_r. }
  assert (E : send_gmail W environ r body subject sender password
    = (emit (Log ERROR gmail_missing_message) ;;
       send_email W "smtp.gmail.com"
         (fst (gmail_credentials environ sender password))
         (snd (gmail_credentials environ sender password))
         r body subject 465)).
  { rewrite send_gmail_run, Hnot, Herr. now rewrite bind_mret. }
  split; [exact E |].
  destruct (send_gmail_session environ r body subject sender password)
    as (Hin & Hall & Hraise).
  split; [rewrite E, trace_bind; left; reflexivity |].
  split; [exact Hin |]. split; [exact Hall | exact Hraise].
Qed.

End EmailFacts.

(** C3, as stated, fails: a sender supplied without a password is
    dropped, and the session logs in with the [GMAIL_USERNAME] value. *)
Lemma gmail_lone_sender_replaced :
  trace (send_gmail accepting env_gmail (RStr "you@example.org") "hi" None
           (Some "me@gmail.com") None)
  = [SmtpConnect "smtp.gmail.com" 465;
     SmtpLogin (Some "env@gmail.com") (Some "env-secret");
     SmtpSendmail (Some "env@gmail.com") ["you@example.org"]
       {| mime_payload := "hi";
          mime_From := Some "env@gmail.com";
          mime_Subject := None;
          mime_To := "you@example.org" |};
     SmtpQuit;
     Log DEBUG "Message with text hi sent to you@example.org."]
  /\ fst (gmail_credentials env_gmail (Some "me@gmail.com") None)
     <> Some "me@gmail.com"
  /\ ~ Forall (email_event_uses "smtp.gmail.com" 465
                (Some "me@gmail.com") (Some "env-secret"))
        (trace (send_gmail accepting env_gmail (RStr "you@example.org") "hi"
                  None (Some "me@gmail.com") None)).
Proof.
  assert (T : trace (send_gmail accepting env_gmail (RStr "you@example.org")
                       "hi" None (Some "me@gmail.com") None)
    = [SmtpConnect "smtp.gmail.com" 465;
       SmtpLogin (Some "env@gmail.com") (Some "env-secret");
       SmtpSendmail (Some "env@gmail.com") ["you@example.org"]
         {| mime_payload := "hi";
            mime_From := Some "env@gmail.com";
            mime_Subject := None;
            mime_To := "you@example.org" |};
       SmtpQuit;
       Log DEBUG "Message with text hi sent to you@example.org."])
    by (vm_compute; reflexivity).
  split; [exact T |]. split.
  - vm_compute. discriminate.
  - rewrite T. intros F.
    apply Forall_cons_1 in F as [_ F]. apply Forall_cons_1 in F as [[F _] _].
    discriminate F.
Qed.

Lemma gmail_fail_soft_witness :
  (fst (gmail_credentials ∅ (Some "me@gmail.com") None) = None
   \/ snd (gmail_credentials ∅ (Some "me@gmail.com") None) = None)
  /\ In (Log ERROR gmail_missing_message)
       (trace (send_gmail accepting ∅ (RStr "you@example.org") "hi" None
                 (Some "me@gmail.com") None)).
Proof.
  assert (H : fst (gmail_credentials ∅ (Some "me@gmail.com") None) = None
              \/ snd (gmail_credentials ∅ (Some "me@gmail.com") None) = None)
    by (left; reflexivity).
  split; [exact H |].
  exact (proj1 (proj2 (gmail_fail_soft accepting ∅ (RStr "you@example.org")
                         "hi" None (Some "me@gmail.com") None H))).
Defined.

(** ** [send_sms] *)

Lemma comprehension_raise {A B} (f : A -> result B) (l : list A) (x : A) :
  In x l -> is_ok (f x) = false ->
  exists y e, In y l /\ f y = Raise e /\ comprehension f l = Raise e.
Proof.
  induction l as [|a l IH]; simpl; [intros [] |].
  intros Hin Hx. destruct (f a) as [b|e] eqn:Ea.
  - destruct Hin as [-> | Hin]; [rewrite Ea in Hx; discriminate |].
    destruct (IH Hin Hx) as (y & e & Hy & Hf & Hc).
    exists y, e. rewrite Hc. auto.
  - exists a, e. auto.
Qed.

Lemma comprehension_ok {A B} (f : A -> result B) (l : list A) (l' : list B) :
  comprehension f l = Ok l' -> Forall2 (fun x y => f x = Ok y) l l'.
Proof.
  revert l'. induction l as [|a l IH]; simpl; intros l' H.
  - inversion H. constructor.
  - destruct (f a) as [b|e] eqn:Ea; [| discriminate].
    destruct (comprehension f l) as [bs|e]; [| discriminate].
    inversion H. constructor; auto.
Qed.

Lemma comprehension_raise_inv {A B} (f : A -> result B) (l : list A)
    (e : exn) :
  comprehension f l = Raise e -> exists y, In y l /\ f y = Raise e.
Proof.
  induction l as [|a l IH]; simpl; [discriminate |].
  destruct (f a) as [b|e'] eqn:Ea.
  - destruct (comprehension f l) as [bs|e']; [discriminate |].
    intros H. inversion H; subst. destruct (IH eq_refl) as (y & Hy & Hf).
    eauto.
  - intros H. inversion H; subst. eauto.
Qed.

Lemma fails_not_ok (ph : string) :
  fails_invalid_phone (_validate_phone_number ph) ->
  is_ok (_validate_phone_number ph) = false.
Proof. intros [shown ->]. reflexivity. Qed.

Lemma validate_recipients_raise (rs : Recipients) (ph : string) :
  In ph (recipient_items rs) ->
  fails_invalid_phone (_validate_phone_number ph) ->
  exists shown, validate_recipients rs = Raise (InvalidPhoneNumber shown).
Proof.
  intros Hin Hf. destruct rs as [s|l]; simpl in *.
  - destruct Hin as [-> | []]. destruct Hf as [shown ->]. eauto.
  - destruct (comprehension_raise _validate_phone_number l ph Hin
                (fails_not_ok ph Hf)) as (y & e & _ & Hy & Hc).
    rewrite Hc. destruct (validate_raise_invalid y e Hy) as [shown ->]. eauto.
Qed.

Lemma validate_recipients_raise_inv (rs : Recipients) (e : exn) :
  validate_recipients rs = Raise e -> exists shown, e = InvalidPhoneNumber shown.
Proof.
  destruct rs as [s|l]; simpl.
  - destruct (_validate_phone_number s) eqn:E; [discriminate |].
    intros H; inversion H; subst. eapply validate_raise_invalid; eauto.
  - destruct (comprehension _validate_phone_number l) eqn:E; [discriminate |].
    intros H; inversion H; subst.
    destruct (comprehension_raise_inv _ _ _ E) as (y & _ & Hy).
    eapply validate_raise_invalid; eauto.
Qed.

(** Normalizing the recipients keeps their number and order. *)
Lemma validate_recipients_ok (rs rs' : Recipients) :
  validate_recipients rs = Ok rs' ->
  Forall2 (fun raw norm => _validate_phone_number raw = Ok norm)
          (recipient_items rs) (recipient_items rs').
Proof.
  destruct rs as [s|l]; simpl.
  - destruct (_validate_phone_number s) eqn:E; [| discriminate].
    intros H; inversion H; subst. simpl. repeat constructor. exact E.
  - destruct (comprehension _validate_phone_number l) eqn:E; [| discriminate].
    intros H; inversion H; subst. simpl. now apply comprehension_ok.
Qed.

Lemma invalid_phone_not_missing_recipients (shown : string) :
  InvalidPhoneNumber shown <> MissingRecipients.
Proof. unfold InvalidPhoneNumber, phone_error_message. discriminate. Qed.

Section SmsFacts.

Variable W : Collaborators.

(** The reporting loop logs one line per result and never raises. *)
Lemma for_each_log (body : string) (results : list SmsSendResult) :
  for_each results (log_sms_response body)
  = (flat_map (fun resp => trace (log_sms_response body resp)) results,
     Ok tt).
Proof.
  induction results as [|resp results IH]; [reflexivity |].
  simpl. rewrite IH. unfold log_sms_response.
  destruct (successful resp); reflexivity.
Qed.

Lemma log_levels (body : string) (results : list SmsSendResult) :
  Forall2 (fun resp ev =>
             exists msg,
               ev = Log (if successful resp then DEBUG else ERROR) msg)
          results
          (flat_map (fun resp => trace (log_sms_response body resp)) results).
Proof.
  induction results as [|resp results IH]; [constructor |].
  simpl. unfold log_sms_response at 1.
  destruct (successful resp) eqn:E; simpl;
    (constructor; [rewrite E; eauto | exact IH]).
Qed.

(** [send_sms] once the recipients are known and normalized. *)
Lemma send_sms_validated (environ : gmap string string) (body : string)
    (recipients : option Recipients) (rs rs' : Recipients) :
  sms_recipients environ recipients = Some rs ->
  validate_recipients rs = Ok rs' ->
  send_sms W environ body recipients
  = match environ !! "AZURE_SMS_CONNECTION_STRING" with
    | None => raise MissingConnectionString
    | Some c =>
        match environ !! "AZURE_SMS_NUMBER" with
        | None => raise MissingSmsNumber
        | Some n =>
            from_ ← lift (_validate_phone_number n);
            call (SmsClientCreate c) (SmsClient_from_connection_string W c) ;;
            sms_responses ← call (SmsSend from_ rs' body)
                                 (SmsClient_send W c from_ rs' body);
            for_each sms_responses (log_sms_response body) ;;
            mret sms_responses
        end
    end.
Proof.
  intros H1 H2. unfold send_sms. rewrite H1, H2, bind_lift_ok. reflexivity.
Qed.

(** The run from client creation on, with its trace and outcome spelled
    out for every answer of the SMS service. *)
Lemma sms_transport_run (body c from_ : string) (rs' : Recipients) :
  (call (SmsClientCreate c) (SmsClient_from_connection_string W c) ;;
   sms_responses ← call (SmsSend from_ rs' body)
                        (SmsClient_send W c from_ rs' body);
   for_each sms_responses (log_sms_response body) ;;
   mret sms_responses)
  = match SmsClient_from_connection_string W c with
    | inl f => ([SmsClientCreate c], Raise (TransportError f))
    | inr _ =>
        match SmsClient_send W c from_ rs' body with
        | inl f =>
            ([SmsClientCreate c; SmsSend from_ rs' body],
             Raise (TransportError f))
        | inr results =>
            (SmsClientCreate c :: SmsSend from_ rs' body
               :: flat_map (fun resp => trace (log_sms_response body resp))
                    results,
             Ok results)
        end
    end.
Proof.
  unfold call. destruct (SmsClient_from_connection_string W c) as [f|[]];
    [reflexivity |].
  destruct (SmsClient_send W c from_ rs' body) as [f|results];
    [reflexivity |].
  unfold mbind at 1 2. unfold M_bind at 1 2. cbv iota beta.
  rewrite for_each_log. unfold mbind, M_bind, mret, M_ret. simpl.
  now rewrite app_nil_r.
Qed.

(** Every way [send_sms] can raise once recipients are determined. *)
Lemma send_sms_raise_cases (environ : gmap string string) (body : string)
    (recipients : option Recipients) (rs : Recipients) (e : exn) :
  sms_recipients environ recipients = Some rs ->
  outcome (send_sms W environ body recipients) = Raise e ->
  (exists shown, e = InvalidPhoneNumber shown)
  \/ e = MissingConnectionString
  \/ e = MissingSmsNumber
  \/ exists f, e = TransportError f.
Proof.
  intros H1. destruct (validate_recipients rs) as [rs'|e'] eqn:H2.
  - rewrite (send_sms_validated _ _ _ _ _ H1 H2).
    destruct (environ !! "AZURE_SMS_CONNECTION_STRING") as [c|];
      [| intros H; inversion H; auto].
    destruct (environ !! "AZURE_SMS_NUMBER") as [n|];
      [| intros H; inversion H; auto].
    destruct (_validate_phone_number n) as [from_|e'] eqn:Hn.
    + rewrite bind_lift_ok, sms_transport_run.
      destruct (SmsClient_from_connection_string W c) as [f|[]];
        [intros H; inversion H; eauto 6 |].
      destruct (SmsClient_send W c from_ rs' body) as [f|results];
        intros H; inversion H; eauto 6.
    + rewrite bind_lift_raise. intros H; inversion H; subst.
      left. eapply validate_raise_invalid; eauto.
  - unfold send_sms. rewrite H1, H2, bind_lift_raise.
    intros H; inversion H; subst.
    left. eapply validate_recipients_raise_inv; eauto.
Qed.

(** C5: when one of the recipients does not normalize, the whole call
    fails with [InvalidPhoneNumber] and nothing at all has happened by
    then: no client was created and no send was made. *)
Theorem sms_invalid_recipient_aborts (environ : gmap string string)
    (body : string) (recipients : option Recipients) (rs : Recipients)
    (ph : string) :
  sms_recipients environ recipients = Some rs ->
  In ph (recipient_items rs) ->
  fails_invalid_phone (_validate_phone_number ph) ->
  (exists shown,
      send_sms W environ body recipients = raise (InvalidPhoneNumber shown))
  /\ trace (send_sms W environ body recipients) = []
  /\ Forall (fun ev => is_sms_transport ev = false)
       (trace (send_sms W environ body recipients)).
Proof.
  intros H1 Hin Hf.
  destruct (validate_recipients_raise rs ph Hin Hf) as [shown H2].
  assert (E : send_sms W environ body recipients
              = raise (InvalidPhoneNumber shown)).
  { unfold send_sms. rewrite H1, H2. apply bind_lift_raise. }
  rewrite E. split; [eauto |]. split; [reflexivity | constructor].
Qed.

(** The rule for the recipients, as a function: [sms_recipients] gives
    [chosen] exactly when [chosen] is the argument, or, without an
    argument, the [SMS_NUMBER] value as a single number. *)
Lemma sms_recipients_chosen (environ : gmap string string)
    (recipients : option Recipients) (chosen : Recipients) :
  sms_recipients environ recipients = Some chosen
  <-> match recipients with
      | Some r => chosen = r
      | None => exists s, environ !! "SMS_NUMBER" = Some s /\ chosen = RStr s
      end.
Proof.
  unfold sms_recipients. destruct recipients as [r|].
  - split; [intros H; now inversion H | now intros ->].
  - destruct (environ !! "SMS_NUMBER") as [s|]; simpl.
    + split; [intros H; inversion H; eauto |].
      intros (s' & Hs & ->). now inversion Hs.
    + split; [discriminate | intros (s' & Hs & _); discriminate].
Qed.

(** C6: the recipients are the argument when there is one, whatever
    [SMS_NUMBER] holds, and the [SMS_NUMBER] value otherwise;
    [MissingRecipients] is raised exactly when both are absent.  The
    recipients so chosen are the ones the call works with: every send
    goes to them, normalized one by one in their order, and with the
    credentials in place and the client created that send is made. *)
Theorem sms_recipients_source (environ : gmap string string) (body : string)
    (recipients : option Recipients) :
  (outcome (send_sms W environ body recipients) = Raise MissingRecipients
   <-> recipients = None /\ environ !! "SMS_NUMBER" = None)
  /\ (forall r v,
        send_sms W (<["SMS_NUMBER" := v]> environ) body (Some r)
        = send_sms W environ body (Some r))
  /\ (forall r,
        send_sms W (delete "SMS_NUMBER" environ) body (Some r)
        = send_sms W environ body (Some r))
  /\ (forall s,
        environ !! "SMS_NUMBER" = Some s ->
        send_sms W environ body None
        = send_sms W environ body (Some (RStr s)))
  /\ Forall (fun ev =>
               match ev with
               | SmsSend _ to_ message =>
                   message = body
                   /\ exists chosen,
                        match recipients with
                        | Some r => chosen = r
                        | None =>
                            exists s, environ !! "SMS_NUMBER" = Some s
                                      /\ chosen = RStr s
                        end
                        /\ validate_recipients chosen = Ok to_
                        /\ Forall2 (fun raw norm =>
                                      _validate_phone_number raw = Ok norm)
                             (recipient_items chosen) (recipient_items to_)
               | _ => True
               end)
       (trace (send_sms W environ body recipients))
  /\ (forall chosen to_ c n from_,
        match recipients with
        | Some r => chosen = r
        | None =>
            exists s, environ !! "SMS_NUMBER" = Some s /\ chosen = RStr s
        end ->
        validate_recipients chosen = Ok to_ ->
        environ !! "AZURE_SMS_CONNECTION_STRING" = Some c ->
        environ !! "AZURE_SMS_NUMBER" = Some n ->
        _validate_phone_number n = Ok from_ ->
        SmsClient_from_connection_string W c = inr tt ->
        exists rest,
          trace (send_sms W environ body recipients)
          = SmsClientCreate c :: SmsSend from_ to_ body :: rest).
Proof.
  split; [| split; [| split; [| split; [| split]]]].
  - split.
    + intros H.
      destruct (sms_recipients environ recipients) as [rs|] eqn:E.
      * exfalso.
        destruct (send_sms_raise_cases _ _ _ _ _ E H)
          as [[shown Hs] | [Hs | [Hs | [f Hs]]]];
          [| discriminate Hs ..].
        symmetry in Hs. now apply invalid_phone_not_missing_recipients in Hs.
      * unfold sms_recipients in E. destruct recipients; [discriminate |].
        split; [reflexivity |].
        destruct (environ !! "SMS_NUMBER"); [discriminate | reflexivity].
    + intros [-> H]. unfold send_sms, sms_recipients. rewrite H. reflexivity.
  - intros r v. unfold send_sms, sms_recipients.
    destruct (validate_recipients r) as [rs'|e];
      [rewrite !bind_lift_ok | reflexivity].
    rewrite !lookup_insert_ne by discriminate. reflexivity.
  - intros r. unfold send_sms, sms_recipients.
    destruct (validate_recipients r) as [rs'|e];
      [rewrite !bind_lift_ok | reflexivity].
    rewrite !lookup_delete_ne by discriminate. reflexivity.
  - intros s H. unfold send_sms, sms_recipients. rewrite H. reflexivity.
  - destruct (sms_recipients environ recipients) as [rs|] eqn:H1.
    2: { unfold send_sms. rewrite H1. constructor. }
    destruct (validate_recipients rs) as [rs'|e] eqn:H2.
    2: { unfold send_sms. rewrite H1, H2, bind_lift_raise. constructor. }
    rewrite (send_sms_validated _ _ _ _ _ H1 H2).
    destruct (environ !! "AZURE_SMS_CONNECTION_STRING") as [c|];
      [| constructor].
    destruct (environ !! "AZURE_SMS_NUMBER") as [n|]; [| constructor].
    destruct (_validate_phone_number n) as [from_|e];
      [| rewrite bind_lift_raise; constructor].
    rewrite bind_lift_ok, sms_transport_run.
    assert (Hsend : validate_recipients rs = Ok rs'
                    /\ Forall2 (fun raw norm =>
                                  _validate_phone_number raw = Ok norm)
                         (recipient_items rs) (recipient_items rs')).
    { split; [exact H2 | now apply validate_recipients_ok]. }
    apply sms_recipients_chosen in H1.
    destruct (SmsClient_from_connection_string W c) as [f|[]];
      [repeat constructor |].
    destruct (SmsClient_send W c from_ rs' body) as [f|results]; simpl.
    + constructor; [exact I |]. constructor; [| constructor].
      split; [reflexivity |]. exists rs. destruct Hsend. auto.
    + constructor; [exact I |]. constructor.
      { split; [reflexivity |]. exists rs. destruct Hsend. auto. }
      apply Forall_forall. intros ev Hev. apply list_elem_of_In in Hev.
      apply in_flat_map in Hev as (resp & _ & Hev).
      unfold log_sms_response in Hev.
      destruct (successful resp); simpl in Hev; destruct Hev as [<- | []];
        exact I.
  - intros chosen to_ c n from_ Hchosen H2 Hc Hn Hf Hclient.
    apply sms_recipients_chosen in Hchosen.
    rewrite (send_sms_validated _ _ _ _ _ Hchosen H2), Hc, Hn, Hf,
      bind_lift_ok, sms_transport_run, Hclient.
    destruct (SmsClient_send W c from_ to_ body); simpl; eauto.
Qed.

(** C7, amended: once the recipients are determined and all normalize,
    an absent [AZURE_SMS_CONNECTION_STRING] raises the connection-string
    error and, with that present, an absent [AZURE_SMS_NUMBER] raises the
    number error, in both cases before anything has happened.  With both
    present the sender number goes through the normalizer: its failure
    ends the call before any contact, and otherwise the normalized
    number is the sender of every send. *)
Theorem sms_credentials_fail_hard (environ : gmap string string)
    (body : string) (recipients : option Recipients) (rs rs' : Recipients) :
  sms_recipients environ recipients = Some rs ->
  validate_recipients rs = Ok rs' ->
  (environ !! "AZURE_SMS_CONNECTION_STRING" = None ->
   send_sms W environ body recipients = raise MissingConnectionString)
  /\ (environ !! "AZURE_SMS_CONNECTION_STRING" <> None ->
      environ !! "AZURE_SMS_NUMBER" = None ->
      send_sms W environ body recipients = raise MissingSmsNumber)
  /\ (forall c n,
        environ !! "AZURE_SMS_CONNECTION_STRING" = Some c ->
        environ !! "AZURE_SMS_NUMBER" = Some n ->
        match _validate_phone_number n with
        | Raise e => send_sms W environ body recipients = raise e
        | Ok from_ =>
            (exists rest,
                trace (send_sms W environ body recipients)
                = SmsClientCreate c :: rest)
            /\ Forall (sms_event_uses from_ rs' body)
                 (trace (send_sms W environ body recipients))
        end).
Proof.
  intros H1 H2. rewrite (send_sms_validated _ _ _ _ _ H1 H2).
  split; [| split].
  - intros ->. reflexivity.
  - intros Hc ->.
    destruct (environ !! "AZURE_SMS_CONNECTION_STRING");
      [reflexivity | congruence].
  - intros c n -> ->.
    destruct (_validate_phone_number n) as [from_|e]; [| reflexivity].
    rewrite bind_lift_ok, sms_transport_run.
    destruct (SmsClient_from_connection_string W c) as [f|[]].
    { split; [eauto | repeat constructor]. }
    destruct (SmsClient_send W c from_ rs' body) as [f|results].
    { split; [eauto | repeat constructor]. }
    split; [eauto |]. simpl. constructor; [exact I |].
    constructor; [repeat split |].
    apply Forall_forall. intros ev Hev. apply list_elem_of_In in Hev.
    apply in_flat_map in Hev as (resp & _ & Hev).
    unfold log_sms_response in Hev.
    destruct (successful resp); simpl in Hev; destruct Hev as [<- | []];
      exact I.
Qed.

(** C8: when the client is created and the service answers the send, the
    answer is returned as it is.  The service was called once, with the
    normalized recipients in the order given; after it come one log line
    per result, in order, at error level for the unsuccessful ones;
    nothing is raised. *)
Theorem sms_returns_transport_results (environ : gmap string string)
    (body : string) (recipients : option Recipients) (rs rs' : Recipients)
    (c n from_ : string) (results : list SmsSendResult) :
  sms_recipients environ recipients = Some rs ->
  validate_recipients rs = Ok rs' ->
  environ !! "AZURE_SMS_CONNECTION_STRING" = Some c ->
  environ !! "AZURE_SMS_NUMBER" = Some n ->
  _validate_phone_number n = Ok from_ ->
  SmsClient_from_connection_string W c = inr tt ->
  SmsClient_send W c from_ rs' body = inr results ->
  outcome (send_sms W environ body recipients) = Ok results
  /\ trace (send_sms W environ body recipients)
     = SmsClientCreate c :: SmsSend from_ rs' body
         :: flat_map (fun resp => trace (log_sms_response body resp)) results
  /\ Forall2 (fun resp ev =>
                exists msg,
                  ev = Log (if successful resp then DEBUG else ERROR) msg)
       results
       (flat_map (fun resp => trace (log_sms_response body resp)) results)
  /\ Forall2 (fun raw norm => _validate_phone_number raw = Ok norm)
       (recipient_items rs) (recipient_items rs')
  /\ (map to results = recipient_items rs' ->
      Forall2 (fun raw resp => _validate_phone_number raw = Ok (to resp))
        (recipient_items rs) results).
Proof.
  intros H1 H2 Hc Hn Hf Hclient Hsend.
  rewrite (send_sms_validated _ _ _ _ _ H1 H2), Hc, Hn, Hf, bind_lift_ok,
    sms_transport_run, Hclient, Hsend.
  split; [reflexivity |]. split; [reflexivity |].
  split; [apply log_levels |].
  pose proof (validate_recipients_ok rs rs' H2) as Hrs.
  split; [exact Hrs |].
  intros Hto. rewrite <- Hto in Hrs. clear -Hrs.
  remember (recipient_items rs) as raws eqn:Er. clear Er.
  revert raws Hrs. induction results as [|resp results IH]; simpl;
    intros raws Hrs; inversion Hrs; subst; constructor; auto.
Qed.


End SmsFacts.

Lemma sms_invalid_recipient_aborts_witness :
  sms_recipients env_sms (Some (RList ["555-123-4567"; "123"]))
  = Some (RList ["555-123-4567"; "123"])
  /\ In "123" (recipient_items (RList ["555-123-4567"; "123"]))
  /\ fails_invalid_phone (_validate_phone_number "123")
  /\ trace (send_sms accepting env_sms "hi"
              (Some (RList ["555-123-4567"; "123"]))) = [].
Proof.
  assert (H1 : sms_recipients env_sms (Some (RList ["555-123-4567"; "123"]))
               = Some (RList ["555-123-4567"; "123"])) by reflexivity.
  assert (H2 : In "123" (recipient_items (RList ["555-123-4567"; "123"])))
    by (right; left; reflexivity).
  assert (H3 : fails_invalid_phone (_validate_phone_number "123"))
    by (exists "123"; reflexivity).
  split; [exact H1 |]. split; [exact H2 |]. split; [exact H3 |].
  exact (proj1 (proj2 (sms_invalid_recipient_aborts accepting env_sms "hi"
                         _ _ "123" H1 H2 H3))).
Defined.

Lemma sms_recipients_source_witness :
  exists rest,
    trace (send_sms accepting env_sms "hi" None)
    = SmsClientCreate "endpoint=https://sms.example/;accesskey=k"
        :: SmsSend "+18335550100" (RStr "+15551234567") "hi" :: rest.
Proof.
  exact (proj2 (proj2 (proj2 (proj2 (proj2
           (sms_recipients_source accepting env_sms "hi" None)))))
           (RStr "555-123-4567") (RStr "+15551234567")
           "endpoint=https://sms.example/;accesskey=k" "+1 (833) 555-0100"
           "+18335550100"
           (ex_intro _ "555-123-4567" (conj eq_refl eq_refl))
           eq_refl eq_refl eq_refl eq_refl eq_refl).
Defined.

(** C7, as stated, fails: with the credentials absent, a call without
    recipients, or with a recipient that does not normalize, ends on the
    recipients' error, which is checked first. *)
Lemma sms_credentials_checked_after_recipients :
  (∅ : gmap string string) !! "AZURE_SMS_CONNECTION_STRING" = None
  /\ (∅ : gmap string string) !! "AZURE_SMS_NUMBER" = None
  /\ send_sms accepting ∅ "hi" None = raise MissingRecipients
  /\ send_sms accepting ∅ "hi" (Some (RList ["555-123-4567"; "123"]))
     = raise (InvalidPhoneNumber "123")
  /\ MissingRecipients <> MissingConnectionString
  /\ MissingRecipients <> MissingSmsNumber
  /\ InvalidPhoneNumber "123" <> MissingConnectionString
  /\ InvalidPhoneNumber "123" <> MissingSmsNumber.
Proof.
  repeat split; try reflexivity; discriminate.
Qed.

Lemma sms_credentials_fail_hard_witness :
  sms_recipients ∅ (Some (RStr "555-123-4567")) = Some (RStr "555-123-4567")
  /\ validate_recipients (RStr "555-123-4567") = Ok (RStr "+15551234567")
  /\ send_sms accepting ∅ "hi" (Some (RStr "555-123-4567"))
     = raise MissingConnectionString.
Proof.
  assert (H1 : sms_recipients ∅ (Some (RStr "555-123-4567"))
               = Some (RStr "555-123-4567")) by reflexivity.
  assert (H2 : validate_recipients (RStr "555-123-4567")
               = Ok (RStr "+15551234567")) by reflexivity.
  split; [exact H1 |]. split; [exact H2 |].
  exact (proj1 (sms_credentials_fail_hard accepting ∅ "hi" _ _ _ H1 H2)
           eq_refl).
Defined.

Lemma sms_returns_transport_results_witness :
  sms_recipients env_sms None = Some (RStr "555-123-4567")
  /\ validate_recipients (RStr "555-123-4567") = Ok (RStr "+15551234567")
  /\ env_sms !! "AZURE_SMS_CONNECTION_STRING"
     = Some "endpoint=https://sms.example/;accesskey=k"
  /\ env_sms !! "AZURE_SMS_NUMBER" = Some "+1 (833) 555-0100"
  /\ _validate_phone_number "+1 (833) 555-0100" = Ok "+18335550100"
  /\ SmsClient_from_connection_string accepting
       "endpoint=https://sms.example/;accesskey=k" = inr tt
  /\ SmsClient_send accepting "endpoint=https://sms.example/;accesskey=k"
       "+18335550100" (RStr "+15551234567") "hi"
     = inr [sample_result "+15551234567" true]
  /\ outcome (send_sms accepting env_sms "hi" None)
     = Ok [sample_result "+15551234567" true].
Proof.
  assert (H1 : sms_recipients env_sms None = Some (RStr "555-123-4567"))
    by reflexivity.
  assert (H2 : validate_recipients (RStr "555-123-4567")
               = Ok (RStr "+15551234567")) by reflexivity.
  assert (H3 : env_sms !! "AZURE_SMS_CONNECTION_STRING"
               = Some "endpoint=https://sms.example/;accesskey=k")
    by reflexivity.
  assert (H4 : env_sms !! "AZURE_SMS_NUMBER" = Some "+1 (833) 555-0100")
    by reflexivity.
  assert (H5 : _validate_phone_number "+1 (833) 555-0100"
               = Ok "+18335550100") by reflexivity.
  assert (H6 : SmsClient_from_connection_string accepting
                 "endpoint=https://sms.example/;accesskey=k" = inr tt)
    by reflexivity.
  assert (H7 : SmsClient_send accepting
                 "endpoint=https://sms.example/;accesskey=k"
                 "+18335550100" (RStr "+15551234567") "hi"
               = inr [sample_result "+15551234567" true]) by reflexivity.
  repeat (split; [assumption |]).
  exact (proj1 (sms_returns_transport_results accepting env_sms "hi" None
                  _ _ _ _ _ _ H1 H2 H3 H4 H5 H6 H7)).
Defined.

(** ** [send_pushover] *)

Section PushoverFacts.

Variable W : Collaborators.

(** The whole of [send_pushover], by cases on the answer to the POST:
    two debug lines about where the keys came from, the POST, and then
    the classification by status code. *)
Lemma send_pushover_run (environ : gmap string string) (message : string)
    (api_token user_key : option string) :
  exists m1 m2,
    send_pushover W environ message api_token user_key
    = let payload :=
        pushover_payload
          (fst (pushover_credentials environ api_token user_key))
          (snd (pushover_credentials environ api_token user_key))
          message in
      let post := HttpPost pushover_url pushover_headers payload in
      match requests_post W pushover_url pushover_headers payload with
      | inl f => ([Log DEBUG m1; Log DEBUG m2; post], Raise (TransportError f))
      | inr res =>
          if (status_code res =? 200)%Z
          then ([Log DEBUG m1; Log DEBUG m2; post;
                 Log DEBUG "Message successfully sent via Pushover."],
                Ok res)
          else
            match json_get_error res with
            | Ok err =>
                ([Log DEBUG m1; Log DEBUG m2; post;
                  Log ERROR (pushover_error_message W res err)],
                 Ok res)
            | Raise e => ([Log DEBUG m1; Log DEBUG m2; post], Raise e)
            end
      end.
Proof.
  unfold send_pushover, pushover_credentials, requests_codes_ok.
  destruct user_key as [u|], api_token as [t|];
    do 2 eexists; cbv zeta; cbn [fst snd];
    unfold call, emit, lift, mbind, M_bind, mret, M_ret; cbn [app];
    match goal with
    | |- _ = match ?post with _ => _ end =>
        destruct post as [f|res]; [reflexivity |];
        destruct (status_code res =? 200)%Z; [reflexivity |];
        cbn [negb]; destruct (json_get_error res); reflexivity
    end.
Qed.

(** X26: on status 200 the success is logged, no error line is, and
    the response is returned. *)
Lemma pushover_status_200 (environ : gmap string string) (message : string)
    (api_token user_key : option string) (res : Response) :
  requests_post W pushover_url pushover_headers
    (pushover_payload
       (fst (pushover_credentials environ api_token user_key))
       (snd (pushover_credentials environ api_token user_key)) message)
  = inr res ->
  status_code res = 200%Z ->
  outcome (send_pushover W environ message api_token user_key) = Ok res
  /\ In (Log DEBUG "Message successfully sent via Pushover.")
       (trace (send_pushover W environ message api_token user_key))
  /\ Forall (fun ev => is_error_log ev = false)
       (trace (send_pushover W environ message api_token user_key)).
Proof.
  intros Hpost Hcode.
  destruct (send_pushover_run environ message api_token user_key)
    as (m1 & m2 & ->).
  cbv zeta. rewrite Hpost, Hcode. simpl.
  split; [reflexivity |]. split; [auto 6 | repeat constructor].
Qed.

(** X27: on any other status with a JSON object as body, the status
    code and the object's [error] entry are logged at error level, and
    the response is returned. *)
Lemma pushover_error_object (environ : gmap string string) (message : string)
    (api_token user_key : option string) (res : Response)
    (fields : gmap string json) :
  requests_post W pushover_url pushover_headers
    (pushover_payload
       (fst (pushover_credentials environ api_token user_key))
       (snd (pushover_credentials environ api_token user_key)) message)
  = inr res ->
  status_code res <> 200%Z ->
  json_body res = Some (JObject fields) ->
  outcome (send_pushover W environ message api_token user_key) = Ok res
  /\ In (Log ERROR (pushover_error_message W res (fields !! "error")))
       (trace (send_pushover W environ message api_token user_key)).
Proof.
  intros Hpost Hcode Hbody.
  destruct (send_pushover_run environ message api_token user_key)
    as (m1 & m2 & ->).
  cbv zeta. rewrite Hpost.
  destruct (Z.eqb_spec (status_code res) 200) as [E|_]; [contradiction |].
  unfold json_get_error. rewrite Hbody. simpl.
  split; [reflexivity | auto 6].
Qed.

(** Any other status with a body that is not JSON: decoding raises while
    the error line is being built, so nothing is logged about the
    failure and no response is returned. *)
Lemma pushover_error_undecodable (environ : gmap string string)
    (message : string) (api_token user_key : option string)
    (res : Response) :
  requests_post W pushover_url pushover_headers
    (pushover_payload
       (fst (pushover_credentials environ api_token user_key))
       (snd (pushover_credentials environ api_token user_key)) message)
  = inr res ->
  status_code res <> 200%Z ->
  json_body res = None ->
  outcome (send_pushover W environ message api_token user_key)
  = Raise JSONDecodeError
  /\ Forall (fun ev => is_error_log ev = false)
       (trace (send_pushover W environ message api_token user_key)).
Proof.
  intros Hpost Hcode Hbody.
  destruct (send_pushover_run environ message api_token user_key)
    as (m1 & m2 & ->).
  cbv zeta. rewrite Hpost.
  destruct (Z.eqb_spec (status_code res) 200) as [E|_]; [contradiction |].
  unfold json_get_error. rewrite Hbody. simpl.
  split; [reflexivity | repeat constructor].
Qed.

End PushoverFacts.

(** C9 (the code departs from the claim): the endpoint answers 502 with
    a body that is not JSON.  The status is not 200, so the error line is
    built, and [res.json()] raises in the middle of it: the call raises
    [JSONDecodeError], the response is not returned and no error line is
    logged. *)
Theorem pushover_non_json_error_raises :
  requests_post behind_bad_gateway pushover_url pushover_headers
    (pushover_payload (Some "token") (Some "user") "hi")
  = inr {| status_code := 502; json_body := None |}
  /\ send_pushover behind_bad_gateway ∅ "hi" (Some "token") (Some "user")
     = ([Log DEBUG "Using Pushover user key provided via input parameter.";
         Log DEBUG "Using Pushover API token provided via input parameter.";
         HttpPost pushover_url pushover_headers
           (pushover_payload (Some "token") (Some "user") "hi")],
        Raise JSONDecodeError)
  /\ is_ok (outcome (send_pushover behind_bad_gateway ∅ "hi"
                       (Some "token") (Some "user"))) = false.
Proof. repeat split. Qed.

(** ** Runs on concrete inputs *)

Example validate_dashes :
  _validate_phone_number "555-123-4567" = Ok "+15551234567".
Proof. reflexivity. Qed.

Example validate_international :
  _validate_phone_number "+44 20 7946 0958" = Ok "+442079460958".
Proof. reflexivity. Qed.

Example validate_too_short :
  _validate_phone_number "123" = Raise (InvalidPhoneNumber "123").
Proof. reflexivity. Qed.

Example validate_letters_dropped :
  digit_concat "1-800-FLOWERS" = "1800"
  /\ _validate_phone_number "1-800-FLOWERS" = Raise (InvalidPhoneNumber "1800").
Proof. split; reflexivity. Qed.

Example findall_runs_in_order :
  re_findall_digits "a12b345--6" = ["12"; "345"; "6"].
Proof. reflexivity. Qed.

Example pushover_error_logged :
  send_pushover accepting ∅ "hi" None (Some "user")
  = ([Log DEBUG "Using Pushover user key provided via input parameter.";
      Log DEBUG "Using Pushover API token from environment variables.";
      HttpPost pushover_url pushover_headers
        (pushover_payload None (Some "user") "hi");
      Log ERROR
        "Pushover API encountered an error, returned status code 400: bad token"],
     Ok {| status_code := 400;
           json_body := Some (JObject {[ "error" := JString "bad token" ]}) |}).
Proof. vm_compute. reflexivity. Qed.

Example sms_mixed_results :
  send_sms accepting env_sms "hi"
    (Some (RList ["555-123-4567"; "+44 20 7946 0958"]))
  = ([SmsClientCreate "endpoint=https://sms.example/;accesskey=k";
      SmsSend "+18335550100" (RList ["+15551234567"; "+442079460958"]) "hi";
      Log DEBUG ("SMS Message " ++ dquote ++ "hi" ++ dquote
                 ++ " successfully sent to " ++ dquote ++ "+15551234567"
                 ++ dquote ++ ".");
      Log ERROR ("Encountered error while sending SMS message to " ++ dquote
                 ++ "+442079460958" ++ dquote ++ ": Invalid To phone number")],
     Ok [sample_result "+15551234567" true;
         sample_result "+442079460958" false]).
Proof. vm_compute. reflexivity. Qed.

(** * Further properties *)

(** ** The scan for digit runs *)

Lemma emit_run_app (run : string) (l l' : list string) :
  (emit_run run l ++ l')%list = emit_run run (l ++ l')%list.
Proof. destruct run; reflexivity. Qed.

Lemma findall_runs_all_digits (s run : string) :
  all_digits s = true -> findall_runs run s = emit_run (run ++ s) [].
Proof.
  revert run. induction s as [|c s IH]; intros run H; simpl in *.
  - now rewrite append_empty_r.
  - apply andb_prop in H as [Hc Hs]. rewrite Hc, IH by exact Hs.
    now rewrite append_assoc.
Qed.

Lemma findall_runs_split (a b run : string) (c : ascii) :
  is_digit c = false ->
  findall_runs run (a ++ String c b)
  = (findall_runs run a ++ re_findall_digits b)%list.
Proof.
  intros Hc. revert run. induction a as [|x a IH]; intros run; simpl.
  - rewrite Hc, emit_run_app. reflexivity.
  - destruct (is_digit x); [apply IH |].
    rewrite IH, emit_run_app. reflexivity.
Qed.

(** X1: a non-empty string made of digits only is found as one single
    run, the whole string. *)
Theorem findall_whole_run (s : string) :
  s <> EmptyString -> all_digits s = true -> re_findall_digits s = [s].
Proof.
  intros Hne Hall. unfold re_findall_digits.
  rewrite findall_runs_all_digits by exact Hall. simpl.
  destruct s; [congruence | reflexivity].
Qed.

Lemma findall_whole_run_witness :
  "5551234567" <> EmptyString
  /\ all_digits "5551234567" = true
  /\ re_findall_digits "5551234567" = ["5551234567"].
Proof.
  assert (H1 : "5551234567" <> EmptyString) by discriminate.
  assert (H2 : all_digits "5551234567" = true) by reflexivity.
  split; [exact H1 |]. split; [exact H2 |].
  exact (findall_whole_run "5551234567" H1 H2).
Defined.

(** X2: a character that is not a digit separates the runs: the runs of
    [a ++ c ++ b] are the runs of [a] followed by the runs of [b]. *)
Theorem findall_separator (a b : string) (c : ascii) :
  is_digit c = false ->
  re_findall_digits (a ++ String c b)
  = (re_findall_digits a ++ re_findall_digits b)%list.
Proof. intros Hc. unfold re_findall_digits at 1 2. now apply findall_runs_split. Qed.

Lemma findall_separator_witness :
  is_digit "-" = false
  /\ re_findall_digits ("555" ++ String "-" "1234")
     = (re_findall_digits "555" ++ re_findall_digits "1234")%list.
Proof.
  assert (H : is_digit "-" = false) by reflexivity.
  split; [exact H |]. exact (findall_separator "555" "1234" "-" H).
Defined.

(** ** More on the normalizer *)

(** X3: only the digits of the input count.  Two inputs with the same
    digits in the same order, one of them at least having a digit, get
    the same answer, whatever punctuation, spaces or letters surround
    the digits. *)
Theorem validate_same_digits (a b : string) :
  has_digit a = true ->
  digit_concat a = digit_concat b ->
  _validate_phone_number a = _validate_phone_number b.
Proof.
  intros Ha Hab.
  assert (Hb : has_digit b = true).
  { apply has_digit_digits_only. rewrite <- digit_concat_digits_only, <- Hab.
    rewrite digit_concat_digits_only. now apply has_digit_digits_only. }
  rewrite (validate_with_digit a Ha), (validate_with_digit b Hb).
  cbv zeta. now rewrite Hab.
Qed.

Lemma validate_same_digits_witness :
  has_digit "(555) 123-4567" = true
  /\ digit_concat "(555) 123-4567" = digit_concat "555.123.4567 ext"
  /\ _validate_phone_number "(555) 123-4567"
     = _validate_phone_number "555.123.4567 ext".
Proof.
  assert (H1 : has_digit "(555) 123-4567" = true) by reflexivity.
  assert (H2 : digit_concat "(555) 123-4567"
               = digit_concat "555.123.4567 ext") by reflexivity.
  split; [exact H1 |]. split; [exact H2 |].
  exact (validate_same_digits _ _ H1 H2).
Defined.

(** X4: whatever the input, a returned number is a plus sign followed by
    11 or 12 characters. *)
Theorem validate_result_length (raw r : string) :
  _validate_phone_number raw = Ok r ->
  exists rest, r = String "+" rest /\ (11 <= String.length rest <= 12)%nat.
Proof.
  unfold _validate_phone_number.
  set (p := match re_findall_digits raw with
            | [] => raw
            | _ :: _ => join_empty (re_findall_digits raw)
            end).
  destruct (String.length p <? 10)%nat eqn:E1; [discriminate |].
  destruct (12 <? String.length p)%nat eqn:E2; [discriminate |].
  apply Nat.ltb_ge in E1. apply Nat.ltb_ge in E2. simpl.
  intros H. inversion H; subst r. eexists. split; [reflexivity |].
  destruct (String.length p =? 10)%nat eqn:E3.
  - apply Nat.eqb_eq in E3. simpl. lia.
  - apply Nat.eqb_neq in E3. simpl. lia.
Qed.

Lemma validate_result_length_witness :
  _validate_phone_number "555-123-4567" = Ok "+15551234567"
  /\ exists rest, "+15551234567" = String "+" rest
                  /\ (11 <= String.length rest <= 12)%nat.
Proof.
  assert (H : _validate_phone_number "555-123-4567" = Ok "+15551234567")
    by reflexivity.
  split; [exact H |]. exact (validate_result_length _ _ H).
Defined.

(** X5: with a digit in the input, the call fails exactly when the digits
    number fewer than 10 or more than 12, and the error then shows the
    digits that were found, not the text that was passed in. *)
Theorem validate_failure_shows_digits (raw : string) :
  has_digit raw = true ->
  (fails_invalid_phone (_validate_phone_number raw)
   <-> ~ length_in_range (String.length (digit_concat raw)))
  /\ (~ length_in_range (String.length (digit_concat raw)) ->
      _validate_phone_number raw
      = Raise (InvalidPhoneNumber (digit_concat raw))).
Proof.
  intros H. split; [now apply validate_fails_iff_with_digit |].
  intros Hout. rewrite (validate_with_digit raw H). cbv zeta.
  unfold length_in_range in Hout.
  destruct (String.length (digit_concat raw) <? 10)%nat eqn:E1;
    [reflexivity |].
  destruct (12 <? String.length (digit_concat raw))%nat eqn:E2;
    [reflexivity |].
  apply Nat.ltb_ge in E1. apply Nat.ltb_ge in E2. exfalso. apply Hout. lia.
Qed.

Lemma validate_failure_shows_digits_witness :
  has_digit "1-800-FLOWERS" = true
  /\ _validate_phone_number "1-800-FLOWERS"
     = Raise (InvalidPhoneNumber "1800").
Proof.
  assert (H : has_digit "1-800-FLOWERS" = true) by reflexivity.
  split; [exact H |].
  apply (proj2 (validate_failure_shows_digits "1-800-FLOWERS" H)).
  unfold length_in_range. simpl. lia.
Defined.

(** X6: without any digit in the input, it is the length of the input
    itself that decides: a text of 10 to 12 characters is returned behind
    the plus sign (and a ["1"] for ten characters), any other is refused
    with the text shown in the error. *)
Theorem validate_digitless (raw : string) :
  has_digit raw = false ->
  (length_in_range (String.length raw) ->
   _validate_phone_number raw
   = Ok ("+" ++ (if (String.length raw =? 10)%nat then "1" ++ raw else raw)))
  /\ (~ length_in_range (String.length raw) ->
      _validate_phone_number raw = Raise (InvalidPhoneNumber raw)).
Proof.
  intros H. rewrite (validate_without_digit raw H). unfold length_in_range.
  destruct (String.length raw <? 10)%nat eqn:E1;
    [apply Nat.ltb_lt in E1 | apply Nat.ltb_ge in E1];
    (destruct (12 <? String.length raw)%nat eqn:E2;
     [apply Nat.ltb_lt in E2 | apply Nat.ltb_ge in E2]); simpl;
    (split; [intros Hin; try lia; reflexivity
            | intros Hout; try reflexivity; exfalso; apply Hout; lia]).
Qed.

Lemma validate_digitless_witness :
  has_digit "call me" = false
  /\ _validate_phone_number "call me" = Raise (InvalidPhoneNumber "call me").
Proof.
  assert (H : has_digit "call me" = false) by reflexivity.
  split; [exact H |].
  apply (proj2 (validate_digitless "call me" H)).
  unfold length_in_range. simpl. lia.
Defined.

(** ** More on [send_email] *)

Section EmailSessions.

Variable W : Collaborators.

(** X7: when the server accepts the connection, the login, the message
    and the closing [QUIT], and the message renders, the call returns,
    and what happened is exactly: connect to the given host and port, log
    in with the given credentials, hand over one message to the
    recipients (a single address counting as a list of one), close the
    session, log the success. *)
Theorem send_email_delivers (host : string) (sender password : option string)
    (r : Recipients) (body : string) (subject : option string) (port : Z)
    (text : string) :
  SMTP_SSL W host port = inr tt ->
  smtp_login W sender password = inr tt ->
  as_string W
    {| mime_payload := body; mime_From := sender; mime_Subject := subject;
       mime_To := str_join ", " (recipient_items r) |} = inr text ->
  smtp_sendmail W sender (recipient_items r) text = inr tt ->
  smtp_quit W host port = inr tt ->
  send_email W host sender password r body subject port
  = ([SmtpConnect host port; SmtpLogin sender password;
      SmtpSendmail sender (recipient_items r)
        {| mime_payload := body; mime_From := sender;
           mime_Subject := subject;
           mime_To := str_join ", " (recipient_items r) |};
      SmtpQuit;
      Log DEBUG ("Message with text " ++ body ++ " sent to "
                 ++ str_join ", " (recipient_items r) ++ ".")],
     Ok tt).
Proof.
  intros H1 H2 H3 H4 H5. rewrite send_email_run. cbv zeta.
  now rewrite H1, H2, H3, H4, H5.
Qed.

(** X8: a session that was opened is closed, once, on every path: whether
    the login or the hand-over fails or not, [SmtpQuit] occurs exactly
    once, and after it nothing is done to the server any more. *)
Theorem send_email_closes_session (host : string)
    (sender password : option string) (r : Recipients) (body : string)
    (subject : option string) (port : Z) :
  SMTP_SSL W host port = inr tt ->
  count_events is_smtp_quit
    (trace (send_email W host sender password r body subject port)) = 1%nat
  /\ exists before after,
       trace (send_email W host sender password r body subject port)
       = (SmtpConnect host port :: before ++ SmtpQuit :: after)%list
       /\ Forall (fun ev => is_log ev = true) after.
Proof.
  intros H1. rewrite send_email_run. cbv zeta. rewrite H1.
  destruct_smtp W; cbn [trace outcome fst snd app];
    (split; [reflexivity |]);
    first
      [ exists [SmtpLogin sender password], [];
        split; [reflexivity | constructor]
      | eexists [_; _], []; split; [reflexivity | constructor]
      | eexists [_; _], [_]; split; [reflexivity | repeat constructor] ].
Qed.

(** X9: a refused connection ends the call at once: no login is tried,
    there is no session to close, and the failure is raised. *)
Theorem send_email_connection_refused (host : string)
    (sender password : option string) (r : Recipients) (body : string)
    (subject : option string) (port : Z) (f : transport_failure) :
  SMTP_SSL W host port = inl f ->
  send_email W host sender password r body subject port
  = ([SmtpConnect host port], Raise (TransportError f)).
Proof. intros H1. rewrite send_email_run. cbv zeta. now rewrite H1. Qed.

(** X10: a refused login stops the session before any message is handed
    over: the session is closed, once, and nothing is logged.  What the
    call raises is the login's failure when the closing [QUIT] is
    accepted, and the failure of the [QUIT] when that fails too. *)
Theorem send_email_login_refused (host : string)
    (sender password : option string) (r : Recipients) (body : string)
    (subject : option string) (port : Z) (f : transport_failure) :
  SMTP_SSL W host port = inr tt ->
  smtp_login W sender password = inl f ->
  outcome (send_email W host sender password r body subject port)
  = match smtp_quit W host port with
    | inl q => Raise (TransportError q)
    | inr _ => Raise (TransportError f)
    end
  /\ trace (send_email W host sender password r body subject port)
     = [SmtpConnect host port; SmtpLogin sender password; SmtpQuit]
  /\ count_events is_smtp_sendmail
       (trace (send_email W host sender password r body subject port)) = 0%nat
  /\ count_events is_smtp_quit
       (trace (send_email W host sender password r body subject port)) = 1%nat
  /\ count_events is_log
       (trace (send_email W host sender password r body subject port)) = 0%nat.
Proof.
  intros H1 H2. rewrite send_email_run. cbv zeta. rewrite H1, H2.
  destruct (smtp_quit W host port) as [q|[]]; repeat split.
Qed.

(** X11: the success line is logged exactly when the call returns: one
    debug line on return, no line at all when the call raises; an error
    line is never logged. *)
Theorem send_email_logs_on_success_only (host : string)
    (sender password : option string) (r : Recipients) (body : string)
    (subject : option string) (port : Z) :
  count_events is_log
    (trace (send_email W host sender password r body subject port))
  = (if is_ok (outcome (send_email W host sender password r body subject
                          port))
     then 1 else 0)%nat
  /\ count_events is_error_log
       (trace (send_email W host sender password r body subject port))
     = 0%nat.
Proof.
  rewrite send_email_run. cbv zeta.
  destruct_smtp W; split; reflexivity.
Qed.

(** X12: whenever a message is handed to the server, its [From] header
    is the sender, its [To] header is the recipients joined by a comma and
    a space, its [Subject] is the one given (none when absent), its text
    is the body, and it goes to each recipient in the order given. *)
Theorem send_email_envelope (host : string) (sender password : option string)
    (r : Recipients) (body : string) (subject : option string) (port : Z) :
  Forall (fun ev =>
            match ev with
            | SmtpSendmail from_addr to_addrs msg =>
                from_addr = sender
                /\ to_addrs = recipient_items r
                /\ msg = {| mime_payload := body;
                            mime_From := sender;
                            mime_Subject := subject;
                            mime_To := str_join ", " (recipient_items r) |}
            | _ => True
            end)
         (trace (send_email W host sender password r body subject port)).
Proof.
  rewrite send_email_run. cbv zeta.
  destruct_smtp W; cbn [trace outcome fst snd app]; repeat constructor.
Qed.

(** X28: whatever happened inside the session, a closing [QUIT] that is
    answered with a failure makes the call raise that failure, and no
    success line is logged, even when the message had been accepted. *)
Theorem send_email_quit_refused (host : string)
    (sender password : option string) (r : Recipients) (body : string)
    (subject : option string) (port : Z) (q : transport_failure) :
  SMTP_SSL W host port = inr tt ->
  smtp_quit W host port = inl q ->
  outcome (send_email W host sender password r body subject port)
  = Raise (TransportError q)
  /\ count_events is_log
       (trace (send_email W host sender password r body subject port))
     = 0%nat.
Proof.
  intros H1 H2. rewrite send_email_run. cbv zeta. rewrite H1, H2.
  destruct_smtp W; split; reflexivity.
Qed.

(** X29: a message that cannot be rendered is never handed over: the
    failure of the rendering is raised after the session is closed, or
    the failure of the closing [QUIT] when that fails too. *)
Theorem send_email_render_failure (host : string)
    (sender password : option string) (r : Recipients) (body : string)
    (subject : option string) (port : Z) (f : transport_failure) :
  SMTP_SSL W host port = inr tt ->
  smtp_login W sender password = inr tt ->
  as_string W
    {| mime_payload := body; mime_From := sender; mime_Subject := subject;
       mime_To := str_join ", " (recipient_items r) |} = inl f ->
  outcome (send_email W host sender password r body subject port)
  = match smtp_quit W host port with
    | inl q => Raise (TransportError q)
    | inr _ => Raise (TransportError f)
    end
  /\ trace (send_email W host sender password r body subject port)
     = [SmtpConnect host port; SmtpLogin sender password; SmtpQuit].
Proof.
  intros H1 H2 H3. rewrite send_email_run. cbv zeta. rewrite H1, H2, H3.
  destruct (smtp_quit W host port) as [q|[]]; split; reflexivity.
Qed.

End EmailSessions.

Lemma send_email_delivers_witness :
  SMTP_SSL accepting "smtp.example.org" 465 = inr tt
  /\ smtp_quit accepting "smtp.example.org" 465 = inr tt
  /\ outcome (send_email accepting "smtp.example.org" (Some "me@example.org")
               (Some "secret") (RList ["a@example.org"; "b@example.org"])
               "hi" (Some "greeting") 465) = Ok tt.
Proof.
  split; [reflexivity |]. split; [reflexivity |].
  rewrite (send_email_delivers accepting "smtp.example.org"
             (Some "me@example.org") (Some "secret")
             (RList ["a@example.org"; "b@example.org"]) "hi"
             (Some "greeting") 465 "hi" eq_refl eq_refl eq_refl eq_refl
             eq_refl).
  reflexivity.
Defined.

Lemma send_email_closes_session_witness :
  SMTP_SSL refusing_login "smtp.example.org" 465 = inr tt
  /\ count_events is_smtp_quit
       (trace (send_email refusing_login "smtp.example.org"
                 (Some "me@example.org") (Some "wrong")
                 (RStr "a@example.org") "hi" None 465)) = 1%nat.
Proof.
  assert (H : SMTP_SSL refusing_login "smtp.example.org" 465 = inr tt)
    by reflexivity.
  split; [exact H |].
  exact (proj1 (send_email_closes_session refusing_login "smtp.example.org"
                  (Some "me@example.org") (Some "wrong")
                  (RStr "a@example.org") "hi" None 465 H)).
Defined.

Lemma send_email_connection_refused_witness :
  SMTP_SSL unreachable "smtp.example.org" 465
  = inl (TransportFailure "connection refused")
  /\ trace (send_email unreachable "smtp.example.org" (Some "me@example.org")
              (Some "secret") (RStr "a@example.org") "hi" None 465)
     = [SmtpConnect "smtp.example.org" 465].
Proof.
  assert (H : SMTP_SSL unreachable "smtp.example.org" 465
              = inl (TransportFailure "connection refused")) by reflexivity.
  split; [exact H |].
  rewrite (send_email_connection_refused unreachable "smtp.example.org"
             (Some "me@example.org") (Some "secret") (RStr "a@example.org")
             "hi" None 465 _ H).
  reflexivity.
Defined.

Lemma send_email_login_refused_witness :
  SMTP_SSL refusing_login "smtp.example.org" 465 = inr tt
  /\ smtp_login refusing_login (Some "me@example.org") (Some "wrong")
     = inl (TransportFailure "535 bad credentials")
  /\ outcome (send_email refusing_login "smtp.example.org"
               (Some "me@example.org") (Some "wrong")
               (RStr "a@example.org") "hi" None 465)
     = Raise (TransportError (TransportFailure "535 bad credentials")).
Proof.
  assert (H1 : SMTP_SSL refusing_login "smtp.example.org" 465 = inr tt)
    by reflexivity.
  assert (H2 : smtp_login refusing_login (Some "me@example.org")
                 (Some "wrong")
               = inl (TransportFailure "535 bad credentials")) by reflexivity.
  split; [exact H1 |]. split; [exact H2 |].
  exact (proj1 (send_email_login_refused refusing_login "smtp.example.org"
                  (Some "me@example.org") (Some "wrong")
                  (RStr "a@example.org") "hi" None 465 _ H1 H2)).
Defined.

Lemma send_email_quit_refused_witness :
  SMTP_SSL refusing_quit "smtp.example.org" 465 = inr tt
  /\ smtp_quit refusing_quit "smtp.example.org" 465
     = inl (TransportFailure "421 service closing")
  /\ outcome (send_email refusing_quit "smtp.example.org"
               (Some "me@example.org") (Some "secret")
               (RStr "a@example.org") "hi" None 465)
     = Raise (TransportError (TransportFailure "421 service closing")).
Proof.
  assert (H1 : SMTP_SSL refusing_quit "smtp.example.org" 465 = inr tt)
    by reflexivity.
  assert (H2 : smtp_quit refusing_quit "smtp.example.org" 465
               = inl (TransportFailure "421 service closing"))
    by reflexivity.
  split; [exact H1 |]. split; [exact H2 |].
  exact (proj1 (send_email_quit_refused refusing_quit "smtp.example.org"
                  (Some "me@example.org") (Some "secret")
                  (RStr "a@example.org") "hi" None 465 _ H1 H2)).
Defined.

Lemma send_email_render_failure_witness :
  SMTP_SSL unrenderable "smtp.example.org" 465 = inr tt
  /\ smtp_login unrenderable (Some "me@example.org") (Some "secret") = inr tt
  /\ trace (send_email unrenderable "smtp.example.org"
              (Some "me@example.org") (Some "secret")
              (RStr "a@example.org") "hi" None 465)
     = [SmtpConnect "smtp.example.org" 465;
        SmtpLogin (Some "me@example.org") (Some "secret"); SmtpQuit].
Proof.
  assert (H1 : SMTP_SSL unrenderable "smtp.example.org" 465 = inr tt)
    by reflexivity.
  assert (H2 : smtp_login unrenderable (Some "me@example.org")
                 (Some "secret") = inr tt) by reflexivity.
  split; [exact H1 |]. split; [exact H2 |].
  exact (proj2 (send_email_render_failure unrenderable "smtp.example.org"
                  (Some "me@example.org") (Some "secret")
                  (RStr "a@example.org") "hi" None 465 _ H1 H2 eq_refl)).
Defined.

(** ** More on [send_gmail] *)

Section GmailResolution.

Variable W : Collaborators.

(** X13: with an argument left out and both variables set, the call is
    [send_email] on [smtp.gmail.com]:465 with the two configured values,
    and [send_gmail] adds no log line of its own. *)
Theorem gmail_from_environment (environ : gmap string string)
    (r : Recipients) (body : string) (subject : option string)
    (sender password : option string) (u p : string) :
  sender = None \/ password = None ->
  environ !! "GMAIL_USERNAME" = Some u ->
  environ !! "GMAIL_PASSWORD" = Some p ->
  send_gmail W environ r body subject sender password
  = send_email W "smtp.gmail.com" (Some u) (Some p) r body subject 465.
Proof.
  intros Hnone Hu Hp. rewrite send_gmail_run.
  rewrite (gmail_credentials_fallback environ sender password Hnone), Hu, Hp.
  assert (Hnot : not_None sender && not_None password = false).
  { destruct Hnone as [-> | ->]; [reflexivity |]. now destruct sender. }
  rewrite Hnot. cbn [fst snd not_None negb orb]. now rewrite !bind_mret.
Qed.

Lemma count_events_app (p : event -> bool) (t1 t2 : list event) :
  count_events p (t1 ++ t2)%list
  = (count_events p t1 + count_events p t2)%nat.
Proof. unfold count_events. now rewrite List.filter_app, length_app. Qed.

Lemma send_email_no_error_log (host : string)
    (sender password : option string) (r : Recipients) (body : string)
    (subject : option string) (port : Z) :
  count_events is_error_log
    (trace (send_email W host sender password r body subject port)) = 0%nat.
Proof.
  rewrite send_email_run. cbv zeta.
  destruct_smtp W; reflexivity.
Qed.

(** X14: the error line about missing credentials is logged exactly when
    the credentials handed to [send_email] lack the sender or the
    password, and then once. *)
Theorem gmail_error_logged_iff (environ : gmap string string)
    (r : Recipients) (body : string) (subject : option string)
    (sender password : option string) :
  count_events is_error_log
    (trace (send_gmail W environ r body subject sender password))
  = (if not_None (fst (gmail_credentials environ sender password))
        && not_None (snd (gmail_credentials environ sender password))
     then 0 else 1)%nat.
Proof.
  rewrite send_gmail_run.
  pose proof (send_email_no_error_log "smtp.gmail.com"
                (fst (gmail_credentials environ sender password))
                (snd (gmail_credentials environ sender password))
                r body subject 465) as Hmail.
  destruct (not_None sender && not_None password);
    destruct (not_None (fst (gmail_credentials environ sender password)));
    destruct (not_None (snd (gmail_credentials environ sender password)));
    cbn [negb orb andb];
    rewrite trace_bind; cbn [outcome emit mret M_ret snd];
    rewrite trace_bind; cbn [outcome emit mret M_ret snd];
    rewrite !count_events_app, Hmail; reflexivity.
Qed.

(** X15: of the environment, [send_gmail] reads [GMAIL_USERNAME] and
    [GMAIL_PASSWORD] only: two environments that agree on these two give
    the same run. *)
Theorem gmail_reads_two_variables (env1 env2 : gmap string string)
    (r : Recipients) (body : string) (subject : option string)
    (sender password : option string) :
  env1 !! "GMAIL_USERNAME" = env2 !! "GMAIL_USERNAME" ->
  env1 !! "GMAIL_PASSWORD" = env2 !! "GMAIL_PASSWORD" ->
  send_gmail W env1 r body subject sender password
  = send_gmail W env2 r body subject sender password.
Proof.
  intros Hu Hp. rewrite !send_gmail_run. unfold gmail_credentials.
  now rewrite Hu, Hp.
Qed.

End GmailResolution.

Lemma gmail_from_environment_witness :
  ((Some "me@gmail.com" : option string) = None
   \/ (None : option string) = None)
  /\ env_gmail !! "GMAIL_USERNAME" = Some "env@gmail.com"
  /\ env_gmail !! "GMAIL_PASSWORD" = Some "env-secret"
  /\ send_gmail accepting env_gmail (RStr "you@example.org") "hi" None
       (Some "me@gmail.com") None
     = send_email accepting "smtp.gmail.com" (Some "env@gmail.com")
         (Some "env-secret") (RStr "you@example.org") "hi" None 465.
Proof.
  assert (H1 : (Some "me@gmail.com" : option string) = None
               \/ (None : option string) = None) by (right; reflexivity).
  assert (H2 : env_gmail !! "GMAIL_USERNAME" = Some "env@gmail.com")
    by reflexivity.
  assert (H3 : env_gmail !! "GMAIL_PASSWORD" = Some "env-secret")
    by reflexivity.
  split; [exact H1 |]. split; [exact H2 |]. split; [exact H3 |].
  exact (gmail_from_environment accepting env_gmail (RStr "you@example.org")
           "hi" None (Some "me@gmail.com") None _ _ H1 H2 H3).
Defined.

Lemma gmail_reads_two_variables_witness :
  env_gmail !! "GMAIL_USERNAME"
  = (<["SMS_NUMBER" := "555-123-4567"]> env_gmail) !! "GMAIL_USERNAME"
  /\ env_gmail !! "GMAIL_PASSWORD"
     = (<["SMS_NUMBER" := "555-123-4567"]> env_gmail) !! "GMAIL_PASSWORD"
  /\ send_gmail accepting env_gmail (RStr "you@example.org") "hi" None
       None None
     = send_gmail accepting (<["SMS_NUMBER" := "555-123-4567"]> env_gmail)
         (RStr "you@example.org") "hi" None None None.
Proof.
  assert (H1 : env_gmail !! "GMAIL_USERNAME"
               = (<["SMS_NUMBER" := "555-123-4567"]> env_gmail)
                   !! "GMAIL_USERNAME") by reflexivity.
  assert (H2 : env_gmail !! "GMAIL_PASSWORD"
               = (<["SMS_NUMBER" := "555-123-4567"]> env_gmail)
                   !! "GMAIL_PASSWORD") by reflexivity.
  split; [exact H1 |]. split; [exact H2 |].
  exact (gmail_reads_two_variables accepting _ _ (RStr "you@example.org")
           "hi" None None None H1 H2).
Defined.

(** ** More on [send_sms] *)

Lemma comprehension_first_failure {A B} (f : A -> result B)
    (good rest : list A) (bad : A) (e : exn) :
  Forall (fun x => is_ok (f x) = true) good ->
  f bad = Raise e ->
  comprehension f (good ++ bad :: rest) = Raise e.
Proof.
  intros Hgood Hbad. induction Hgood as [|x good Hx _ IH]; simpl.
  - now rewrite Hbad.
  - destruct (f x); [| discriminate]. now rewrite IH.
Qed.

Section SmsRuns.

Variable W : Collaborators.

(** The four shapes a run of [send_sms] can have. *)
Lemma send_sms_run_cases (environ : gmap string string) (body : string)
    (recipients : option Recipients) :
  (exists e, send_sms W environ body recipients = ([], Raise e))
  \/ (exists c f,
        send_sms W environ body recipients
        = ([SmsClientCreate c], Raise (TransportError f)))
  \/ (exists c from_ to_ f,
        send_sms W environ body recipients
        = ([SmsClientCreate c; SmsSend from_ to_ body],
           Raise (TransportError f)))
  \/ (exists c from_ to_ results,
        send_sms W environ body recipients
        = (SmsClientCreate c :: SmsSend from_ to_ body
             :: flat_map (fun resp => trace (log_sms_response body resp))
                  results,
           Ok results)).
Proof.
  destruct (sms_recipients environ recipients) as [rs|] eqn:H1.
  2: { left. exists MissingRecipients. unfold send_sms. now rewrite H1. }
  destruct (validate_recipients rs) as [rs'|e] eqn:H2.
  2: { left. exists e. unfold send_sms. now rewrite H1, H2. }
  rewrite (send_sms_validated W _ _ _ _ _ H1 H2).
  destruct (environ !! "AZURE_SMS_CONNECTION_STRING") as [c|];
    [| left; eexists; reflexivity].
  destruct (environ !! "AZURE_SMS_NUMBER") as [n|];
    [| left; eexists; reflexivity].
  destruct (_validate_phone_number n) as [from_|e];
    [| left; eexists; reflexivity].
  rewrite bind_lift_ok, sms_transport_run.
  destruct (SmsClient_from_connection_string W c) as [f|[]];
    [right; left; eauto |].
  destruct (SmsClient_send W c from_ rs' body) as [f|results].
  - right; right; left. eauto 6.
  - right; right; right. eauto 6.
Qed.

Lemma count_in_log_lines (p : event -> bool) (b : bool) (body : string)
    (results : list SmsSendResult) :
  (forall lvl msg, p (Log lvl msg) = b) ->
  count_events p
    (flat_map (fun resp => trace (log_sms_response body resp)) results)
  = (if b then length results else 0)%nat.
Proof.
  intros Hp. induction results as [|resp results IH];
    [now destruct b |].
  cbn [flat_map]. rewrite count_events_app, IH.
  unfold log_sms_response, count_events.
  destruct (successful resp); cbn [negb emit trace fst List.filter];
    rewrite Hp; destruct b; reflexivity.
Qed.

(** X16: of the environment, [send_sms] reads [SMS_NUMBER],
    [AZURE_SMS_CONNECTION_STRING] and [AZURE_SMS_NUMBER] only: two
    environments that agree on these three give the same run. *)
Theorem sms_reads_three_variables (env1 env2 : gmap string string)
    (body : string) (recipients : option Recipients) :
  env1 !! "SMS_NUMBER" = env2 !! "SMS_NUMBER" ->
  env1 !! "AZURE_SMS_CONNECTION_STRING"
  = env2 !! "AZURE_SMS_CONNECTION_STRING" ->
  env1 !! "AZURE_SMS_NUMBER" = env2 !! "AZURE_SMS_NUMBER" ->
  send_sms W env1 body recipients = send_sms W env2 body recipients.
Proof.
  intros H1 H2 H3. unfold send_sms, sms_recipients. rewrite H1.
  destruct (match recipients with
            | Some r => Some r
            | None => RStr <$> env2 !! "SMS_NUMBER"
            end) as [rs|]; [| reflexivity].
  destruct (validate_recipients rs) as [rs'|e]; [| reflexivity].
  rewrite !bind_lift_ok, H2, H3. reflexivity.
Qed.

(** X17: in a list of recipients, the first number that does not
    normalize decides the error: with every number before it valid, the
    call raises that number's error, whatever follows it in the list,
    and nothing has happened by then. *)
Theorem sms_first_invalid_reported (environ : gmap string string)
    (body : string) (good rest : list string) (bad : string) (e : exn) :
  Forall (fun ph => is_ok (_validate_phone_number ph) = true) good ->
  _validate_phone_number bad = Raise e ->
  send_sms W environ body (Some (RList (good ++ bad :: rest)))
  = ([], Raise e).
Proof.
  intros Hgood Hbad. unfold send_sms, sms_recipients, validate_recipients.
  now rewrite (comprehension_first_failure _ good rest bad e Hgood Hbad).
Qed.

(** X18: an empty list of recipients is not a missing recipient: nothing
    is raised about recipients, and with the two credentials in place the
    service is asked to send to nobody. *)
Theorem sms_empty_list_reaches_service (environ : gmap string string)
    (body c n from_ : string) :
  environ !! "AZURE_SMS_CONNECTION_STRING" = Some c ->
  environ !! "AZURE_SMS_NUMBER" = Some n ->
  _validate_phone_number n = Ok from_ ->
  SmsClient_from_connection_string W c = inr tt ->
  exists rest,
    trace (send_sms W environ body (Some (RList [])))
    = SmsClientCreate c :: SmsSend from_ (RList []) body :: rest.
Proof.
  intros Hc Hn Hf Hclient.
  rewrite (send_sms_validated W environ body (Some (RList [])) (RList [])
             (RList []) eq_refl eq_refl).
  rewrite Hc, Hn, Hf, bind_lift_ok, sms_transport_run, Hclient.
  destruct (SmsClient_send W c from_ (RList []) body); simpl; eauto.
Qed.

Lemma no_transport_in_log_lines (body : string)
    (results : list SmsSendResult) :
  List.filter is_sms_transport
    (flat_map (fun resp => trace (log_sms_response body resp)) results)
  = [].
Proof.
  induction results as [|resp results IH]; [reflexivity |].
  cbn [flat_map]. rewrite List.filter_app, IH.
  unfold log_sms_response. destruct (successful resp); reflexivity.
Qed.

(** X19: in any call at most one client is created and at most one send
    is made, and a send is made only after a client was created: what
    reaches the SMS service is, in this order, nothing, or the creation
    of a client, or the creation of a client followed by one send of the
    message. *)
Theorem sms_single_send (environ : gmap string string) (body : string)
    (recipients : option Recipients) :
  (count_events is_sms_send (trace (send_sms W environ body recipients))
   <= count_events is_sms_create
        (trace (send_sms W environ body recipients)))%nat
  /\ (count_events is_sms_create
        (trace (send_sms W environ body recipients)) <= 1)%nat
  /\ match List.filter is_sms_transport
             (trace (send_sms W environ body recipients)) with
     | [] => True
     | [SmsClientCreate _] => True
     | [SmsClientCreate _; SmsSend _ _ message] => message = body
     | _ => False
     end.
Proof.
  destruct (send_sms_run_cases environ body recipients)
    as [[e ->] | [(c & f & ->) | [(c & fr & t & f & ->)
                                 | (c & fr & t & results & ->)]]];
    try (cbn; repeat split; lia).
  cbn [trace fst].
  change (SmsClientCreate c :: SmsSend fr t body :: ?l)
    with ([SmsClientCreate c; SmsSend fr t body] ++ l)%list.
  rewrite !count_events_app, List.filter_app, no_transport_in_log_lines.
  rewrite (count_in_log_lines is_sms_send false) by reflexivity.
  rewrite (count_in_log_lines is_sms_create false) by reflexivity.
  cbn. repeat split; lia.
Qed.

(** X20: the call logs only about results it is returning: one line per
    result when it returns, and no line at all when it raises. *)
Theorem sms_logs_per_result (environ : gmap string string) (body : string)
    (recipients : option Recipients) :
  count_events is_log (trace (send_sms W environ body recipients))
  = match outcome (send_sms W environ body recipients) with
    | Ok results => length results
    | Raise _ => 0%nat
    end.
Proof.
  destruct (send_sms_run_cases environ body recipients)
    as [[e ->] | [(c & f & ->) | [(c & fr & t & f & ->)
                                 | (c & fr & t & results & ->)]]];
    try reflexivity.
  cbn [trace outcome fst snd].
  change (SmsClientCreate c :: SmsSend fr t body :: ?l)
    with ([SmsClientCreate c; SmsSend fr t body] ++ l)%list.
  rewrite count_events_app.
  rewrite (count_in_log_lines is_log true) by reflexivity.
  reflexivity.
Qed.

(** X21: when the client cannot be created the failure is raised and no
    send is attempted. *)
Theorem sms_client_failure (environ : gmap string string) (body : string)
    (recipients : option Recipients) (rs rs' : Recipients)
    (c n from_ : string) (f : transport_failure) :
  sms_recipients environ recipients = Some rs ->
  validate_recipients rs = Ok rs' ->
  environ !! "AZURE_SMS_CONNECTION_STRING" = Some c ->
  environ !! "AZURE_SMS_NUMBER" = Some n ->
  _validate_phone_number n = Ok from_ ->
  SmsClient_from_connection_string W c = inl f ->
  send_sms W environ body recipients
  = ([SmsClientCreate c], Raise (TransportError f)).
Proof.
  intros H1 H2 Hc Hn Hf Hclient.
  rewrite (send_sms_validated W _ _ _ _ _ H1 H2), Hc, Hn, Hf, bind_lift_ok,
    sms_transport_run, Hclient.
  reflexivity.
Qed.

End SmsRuns.

Lemma sms_reads_three_variables_witness :
  env_sms !! "SMS_NUMBER"
  = (<["GMAIL_USERNAME" := "env@gmail.com"]> env_sms) !! "SMS_NUMBER"
  /\ env_sms !! "AZURE_SMS_CONNECTION_STRING"
     = (<["GMAIL_USERNAME" := "env@gmail.com"]> env_sms)
         !! "AZURE_SMS_CONNECTION_STRING"
  /\ env_sms !! "AZURE_SMS_NUMBER"
     = (<["GMAIL_USERNAME" := "env@gmail.com"]> env_sms)
         !! "AZURE_SMS_NUMBER"
  /\ send_sms accepting env_sms "hi" None
     = send_sms accepting (<["GMAIL_USERNAME" := "env@gmail.com"]> env_sms)
         "hi" None.
Proof.
  assert (H1 : env_sms !! "SMS_NUMBER"
               = (<["GMAIL_USERNAME" := "env@gmail.com"]> env_sms)
                   !! "SMS_NUMBER") by reflexivity.
  assert (H2 : env_sms !! "AZURE_SMS_CONNECTION_STRING"
               = (<["GMAIL_USERNAME" := "env@gmail.com"]> env_sms)
                   !! "AZURE_SMS_CONNECTION_STRING") by reflexivity.
  assert (H3 : env_sms !! "AZURE_SMS_NUMBER"
               = (<["GMAIL_USERNAME" := "env@gmail.com"]> env_sms)
                   !! "AZURE_SMS_NUMBER") by reflexivity.
  split; [exact H1 |]. split; [exact H2 |]. split; [exact H3 |].
  exact (sms_reads_three_variables accepting _ _ "hi" None H1 H2 H3).
Defined.

Lemma sms_first_invalid_reported_witness :
  Forall (fun ph => is_ok (_validate_phone_number ph) = true)
    ["555-123-4567"]
  /\ _validate_phone_number "123" = Raise (InvalidPhoneNumber "123")
  /\ send_sms accepting env_sms "hi"
       (Some (RList (["555-123-4567"] ++ "123" :: ["12"])))
     = ([], Raise (InvalidPhoneNumber "123")).
Proof.
  assert (H1 : Forall (fun ph => is_ok (_validate_phone_number ph) = true)
                 ["555-123-4567"]) by (repeat constructor).
  assert (H2 : _validate_phone_number "123"
               = Raise (InvalidPhoneNumber "123")) by reflexivity.
  split; [exact H1 |]. split; [exact H2 |].
  exact (sms_first_invalid_reported accepting env_sms "hi" _ ["12"] _ _
           H1 H2).
Defined.

Lemma sms_empty_list_reaches_service_witness :
  env_sms !! "AZURE_SMS_CONNECTION_STRING"
  = Some "endpoint=https://sms.example/;accesskey=k"
  /\ env_sms !! "AZURE_SMS_NUMBER" = Some "+1 (833) 555-0100"
  /\ _validate_phone_number "+1 (833) 555-0100" = Ok "+18335550100"
  /\ SmsClient_from_connection_string accepting
       "endpoint=https://sms.example/;accesskey=k" = inr tt
  /\ exists rest,
       trace (send_sms accepting env_sms "hi" (Some (RList [])))
       = SmsClientCreate "endpoint=https://sms.example/;accesskey=k"
           :: SmsSend "+18335550100" (RList []) "hi" :: rest.
Proof.
  assert (H1 : env_sms !! "AZURE_SMS_CONNECTION_STRING"
               = Some "endpoint=https://sms.example/;accesskey=k")
    by reflexivity.
  assert (H2 : env_sms !! "AZURE_SMS_NUMBER" = Some "+1 (833) 555-0100")
    by reflexivity.
  assert (H3 : _validate_phone_number "+1 (833) 555-0100"
               = Ok "+18335550100") by reflexivity.
  assert (H4 : SmsClient_from_connection_string accepting
                 "endpoint=https://sms.example/;accesskey=k" = inr tt)
    by reflexivity.
  repeat (split; [assumption |]).
  exact (sms_empty_list_reaches_service accepting env_sms "hi" _ _ _
           H1 H2 H3 H4).
Defined.

Lemma sms_client_failure_witness :
  sms_recipients env_sms None = Some (RStr "555-123-4567")
  /\ validate_recipients (RStr "555-123-4567") = Ok (RStr "+15551234567")
  /\ env_sms !! "AZURE_SMS_CONNECTION_STRING"
     = Some "endpoint=https://sms.example/;accesskey=k"
  /\ env_sms !! "AZURE_SMS_NUMBER" = Some "+1 (833) 555-0100"
  /\ _validate_phone_number "+1 (833) 555-0100" = Ok "+18335550100"
  /\ SmsClient_from_connection_string unreachable
       "endpoint=https://sms.example/;accesskey=k"
     = inl (TransportFailure "malformed connection string")
  /\ send_sms unreachable env_sms "hi" None
     = ([SmsClientCreate "endpoint=https://sms.example/;accesskey=k"],
        Raise (TransportError
                 (TransportFailure "malformed connection string"))).
Proof.
  assert (H1 : sms_recipients env_sms None = Some (RStr "555-123-4567"))
    by reflexivity.
  assert (H2 : validate_recipients (RStr "555-123-4567")
               = Ok (RStr "+15551234567")) by reflexivity.
  assert (H3 : env_sms !! "AZURE_SMS_CONNECTION_STRING"
               = Some "endpoint=https://sms.example/;accesskey=k")
    by reflexivity.
  assert (H4 : env_sms !! "AZURE_SMS_NUMBER" = Some "+1 (833) 555-0100")
    by reflexivity.
  assert (H5 : _validate_phone_number "+1 (833) 555-0100"
               = Ok "+18335550100") by reflexivity.
  assert (H6 : SmsClient_from_connection_string unreachable
                 "endpoint=https://sms.example/;accesskey=k"
               = inl (TransportFailure "malformed connection string"))
    by reflexivity.
  repeat (split; [assumption |]).
  exact (sms_client_failure unreachable env_sms "hi" None _ _ _ _ _ _
           H1 H2 H3 H4 H5 H6).
Defined.

(** ** More on [send_pushover] *)

Section PushoverRuns.

Variable W : Collaborators.

(** X22: every call makes exactly one POST, to the fixed address with the
    fixed header, carrying [token], [user], [message] and the sound
    [bugle]; an argument that is given is what is posted for its field,
    whatever the variable holds and whether or not the other argument is
    given, and an absent argument is replaced by its variable, or posted
    as absent when the variable is unset too. *)
Theorem pushover_posts_once (environ : gmap string string) (message : string)
    (api_token user_key : option string) :
  List.filter is_http_post
    (trace (send_pushover W environ message api_token user_key))
  = [HttpPost "https://api.pushover.net/1/messages.json"
       [("Content-Type", "application/x-www-form-urlencoded")]
       [("token", match api_token with
                  | Some t => Some t
                  | None => environ !! "PUSHOVER_API_KEY"
                  end);
        ("user", match user_key with
                 | Some u => Some u
                 | None => environ !! "PUSHOVER_USER_KEY"
                 end);
        ("message", Some message);
        ("sound", Some "bugle")]].
Proof.
  destruct (send_pushover_run W environ message api_token user_key)
    as (m1 & m2 & ->).
  cbv zeta. unfold pushover_credentials, pushover_payload.
  destruct api_token as [t|], user_key as [u|]; cbn [fst snd];
    match goal with
    | |- context [requests_post W ?a ?b ?c] =>
        destruct (requests_post W a b c) as [f|res]; [reflexivity |];
        destruct (status_code res =? 200)%Z; [reflexivity |];
        destruct (json_get_error res); reflexivity
    end.
Qed.

(** X23: when the POST itself fails, the failure is raised after the two
    debug lines about the keys; nothing is logged about the failure. *)
Theorem pushover_post_failure (environ : gmap string string)
    (message : string) (api_token user_key : option string)
    (f : transport_failure) :
  requests_post W pushover_url pushover_headers
    (pushover_payload
       (fst (pushover_credentials environ api_token user_key))
       (snd (pushover_credentials environ api_token user_key)) message)
  = inl f ->
  outcome (send_pushover W environ message api_token user_key)
  = Raise (TransportError f)
  /\ count_events is_log
       (trace (send_pushover W environ message api_token user_key)) = 2%nat
  /\ count_events is_error_log
       (trace (send_pushover W environ message api_token user_key)) = 0%nat.
Proof.
  intros Hpost.
  destruct (send_pushover_run W environ message api_token user_key)
    as (m1 & m2 & ->).
  cbv zeta. rewrite Hpost. repeat split.
Qed.

(** X24: once the POST is answered, the call returns the response exactly
    when the status is 200 or the body is a JSON object; with any other
    status and a body that is not JSON it raises [JSONDecodeError], and
    with a JSON body that is not an object it raises [AttributeError]. *)
Theorem pushover_outcome_by_status (environ : gmap string string)
    (message : string) (api_token user_key : option string)
    (res : Response) :
  requests_post W pushover_url pushover_headers
    (pushover_payload
       (fst (pushover_credentials environ api_token user_key))
       (snd (pushover_credentials environ api_token user_key)) message)
  = inr res ->
  outcome (send_pushover W environ message api_token user_key)
  = (if (status_code res =? 200)%Z then Ok res
     else match json_body res with
          | None => Raise JSONDecodeError
          | Some (JObject _) => Ok res
          | Some _ => Raise AttributeError
          end).
Proof.
  intros Hpost.
  destruct (send_pushover_run W environ message api_token user_key)
    as (m1 & m2 & ->).
  cbv zeta. rewrite Hpost.
  destruct (status_code res =? 200)%Z; [reflexivity |].
  unfold json_get_error.
  destruct (json_body res) as [[]|]; reflexivity.
Qed.

(** X25: the call never raises over credentials: whatever is missing,
    an exception can only be the failure of the POST or the failure to
    read the error entry of the answer. *)
Theorem pushover_raise_cases (environ : gmap string string)
    (message : string) (api_token user_key : option string) (e : exn) :
  outcome (send_pushover W environ message api_token user_key) = Raise e ->
  (exists f, e = TransportError f)
  \/ e = JSONDecodeError
  \/ e = AttributeError.
Proof.
  destruct (send_pushover_run W environ message api_token user_key)
    as (m1 & m2 & ->).
  cbv zeta.
  match goal with
  | |- context [requests_post W ?a ?b ?c] =>
      destruct (requests_post W a b c) as [f|res]
  end.
  { intros H; inversion H; eauto. }
  destruct (status_code res =? 200)%Z; [discriminate |].
  unfold json_get_error.
  destruct (json_body res) as [[]|]; intros H; inversion H; auto.
Qed.

End PushoverRuns.

Lemma pushover_post_failure_witness :
  requests_post unreachable pushover_url pushover_headers
    (pushover_payload
       (fst (pushover_credentials env_pushover None None))
       (snd (pushover_credentials env_pushover None None)) "hi")
  = inl (TransportFailure "no route to host")
  /\ outcome (send_pushover unreachable env_pushover "hi" None None)
     = Raise (TransportError (TransportFailure "no route to host")).
Proof.
  assert (H : requests_post unreachable pushover_url pushover_headers
                (pushover_payload
                   (fst (pushover_credentials env_pushover None None))
                   (snd (pushover_credentials env_pushover None None)) "hi")
              = inl (TransportFailure "no route to host")) by reflexivity.
  split; [exact H |].
  exact (proj1 (pushover_post_failure unreachable env_pushover "hi" None
                  None _ H)).
Defined.

Lemma pushover_outcome_by_status_witness :
  requests_post accepting pushover_url pushover_headers
    (pushover_payload
       (fst (pushover_credentials env_pushover None (Some "user")))
       (snd (pushover_credentials env_pushover None (Some "user"))) "hi")
  = inr {| status_code := 400;
           json_body := Some (JObject {[ "error" := JString "bad token" ]}) |}
  /\ is_ok (outcome (send_pushover accepting env_pushover "hi" None
                       (Some "user"))) = true.
Proof.
  assert (H : requests_post accepting pushover_url pushover_headers
                (pushover_payload
                   (fst (pushover_credentials env_pushover None
                           (Some "user")))
                   (snd (pushover_credentials env_pushover None
                           (Some "user"))) "hi")
              = inr {| status_code := 400;
                       json_body :=
                         Some (JObject {[ "error" := JString "bad token" ]}) |})
    by reflexivity.
  split; [exact H |].
  rewrite (pushover_outcome_by_status accepting env_pushover "hi" None
             (Some "user") _ H).
  reflexivity.
Defined.

Lemma pushover_raise_cases_witness :
  outcome (send_pushover behind_bad_gateway ∅ "hi" None None)
  = Raise JSONDecodeError
  /\ ((exists f, JSONDecodeError = TransportError f)
      \/ JSONDecodeError = JSONDecodeError
      \/ JSONDecodeError = AttributeError).
Proof.
  assert (H : outcome (send_pushover behind_bad_gateway ∅ "hi" None None)
              = Raise JSONDecodeError) by reflexivity.
  split; [exact H |].
  exact (pushover_raise_cases behind_bad_gateway ∅ "hi" None None _ H).
Defined.

Lemma pushover_status_200_witness :
  requests_post pushover_accepting pushover_url pushover_headers
    (pushover_payload
       (fst (pushover_credentials env_pushover None None))
       (snd (pushover_credentials env_pushover None None)) "hi")
  = inr {| status_code := 200;
           json_body := Some (JObject {[ "status" := JNumber 1 ]}) |}
  /\ outcome (send_pushover pushover_accepting env_pushover "hi" None None)
     = Ok {| status_code := 200;
             json_body := Some (JObject {[ "status" := JNumber 1 ]}) |}.
Proof.
  assert (H : requests_post pushover_accepting pushover_url pushover_headers
                (pushover_payload
                   (fst (pushover_credentials env_pushover None None))
                   (snd (pushover_credentials env_pushover None None)) "hi")
              = inr {| status_code := 200;
                       json_body :=
                         Some (JObject {[ "status" := JNumber 1 ]}) |})
    by reflexivity.
  split; [exact H |].
  exact (proj1 (pushover_status_200 pushover_accepting env_pushover "hi"
                  None None _ H eq_refl)).
Defined.

Lemma pushover_error_object_witness :
  requests_post accepting pushover_url pushover_headers
    (pushover_payload
       (fst (pushover_credentials env_pushover None None))
       (snd (pushover_credentials env_pushover None None)) "hi")
  = inr {| status_code := 400;
           json_body := Some (JObject {[ "error" := JString "bad token" ]}) |}
  /\ In (Log ERROR
           "Pushover API encountered an error, returned status code 400: bad token")
        (trace (send_pushover accepting env_pushover "hi" None None)).
Proof.
  assert (H : requests_post accepting pushover_url pushover_headers
                (pushover_payload
                   (fst (pushover_credentials env_pushover None None))
                   (snd (pushover_credentials env_pushover None None)) "hi")
              = inr {| status_code := 400;
                       json_body :=
                         Some (JObject {[ "error" := JString "bad token" ]}) |})
    by reflexivity.
  split; [exact H |].
  assert (Hcode : status_code
                    {| status_code := 400;
                       json_body :=
                         Some (JObject {[ "error" := JString "bad token" ]}) |}
                  <> 200%Z) by discriminate.
  exact (proj2 (pushover_error_object accepting env_pushover "hi" None None
                  _ _ H Hcode eq_refl)).
Defined.
